(** * Cayley-Dickson number types: complex, quaternion and octonion templates

    A shallow embedding of [complex.h] (classes [complex<T>] and
    [octonion<T>]) and [quaternions.h] (class [quaternion<T>]) of namespace
    [Stephan], with the properties of their arithmetic.

    The classes are templates over a scalar type [T].  The embedding keeps
    the template parameter: every operation is written over a type class
    [Scalar T] that lists the operators and library functions the headers
    apply to values of [T].  Two instances are given: IEEE-754 binary64
    ([double], the kernel's primitive floats), the scalar the division
    operators [static_assert] for, and exact integers. *)

From Stdlib Require Import ZArith List String Ascii Bool Lia.
From Stdlib Require Import DecimalString.
From Stdlib Require Import Floats.
From Stdlib Require Import Ring ZArithRing.
Import ListNotations.

Set Implicit Arguments.

(** ** The scalar type of the templates *)

(** What the headers use of [T]: construction from an integer literal
    ([T x = 0], [x / 2], [sign_bit * x]), the arithmetic operators, the
    comparisons [==] and [>=], and [std::sqrt], [std::signbit].  [s_abs]
    ([std::abs]) is not called by the headers; the rendering property is
    phrased with it. *)
Class Scalar (T : Type) : Type := {
  s_of_int : Z -> T;
  s_add : T -> T -> T;
  s_sub : T -> T -> T;
  s_mul : T -> T -> T;
  s_div : T -> T -> T;
  s_neg : T -> T;
  s_eqb : T -> T -> bool;
  s_geb : T -> T -> bool;
  s_sqrt : T -> T;
  s_signbit : T -> bool;
  s_abs : T -> T
}.

(** [std::ostream << T].  The formatter is a library function; [None]
    stands for a value outside the fragment of it that is modelled. *)
Class Printable (T : Type) : Type := {
  show : T -> option string
}.

Declare Scope scalar_scope.
Delimit Scope scalar_scope with S.
Notation "x + y" := (s_add x y) : scalar_scope.
Notation "x - y" := (s_sub x y) : scalar_scope.
Notation "x * y" := (s_mul x y) : scalar_scope.
Notation "x / y" := (s_div x y) : scalar_scope.
Notation "- x" := (s_neg x) : scalar_scope.
Notation "x == y" := (s_eqb x y) (at level 70, no associativity) : scalar_scope.
Notation "x >= y" := (s_geb x y) : scalar_scope.
Notation "# n" := (s_of_int n%Z) (at level 1, n at level 0, format "# n") : scalar_scope.

(** *** [double]: IEEE-754 binary64 *)

Definition double : Type := PrimFloat.float.

(** Conversion of a C++ [int] to [double] (exact on the range of [int]). *)
Definition double_of_int (z : Z) : double :=
  match z with
  | Z0 => PrimFloat.zero
  | Zpos _ => PrimFloat.of_uint63 (Uint63.of_Z z)
  | Zneg _ => PrimFloat.opp (PrimFloat.of_uint63 (Uint63.of_Z (Z.opp z)))
  end.

(** [std::signbit]: the sign bit, set for negative values and for [-0.0].
    The model has one NaN, whose sign bit reads as clear. *)
Definition double_signbit (x : double) : bool :=
  match Prim2SF x with
  | S754_zero s => s
  | S754_infinity s => s
  | S754_finite s _ _ => s
  | S754_nan => false
  end.

(** What the square root of a binary float can be: a zero, a positive
    value or NaN. *)
Definition nonneg_or_nan (r : spec_float) : bool :=
  match r with
  | S754_zero _ => true
  | S754_infinity s => negb s
  | S754_finite s _ _ => negb s
  | S754_nan => true
  end.

#[export] Instance Scalar_double : Scalar double := {|
  s_of_int := double_of_int;
  s_add := PrimFloat.add;
  s_sub := PrimFloat.sub;
  s_mul := PrimFloat.mul;
  s_div := PrimFloat.div;
  s_neg := PrimFloat.opp;
  s_eqb := PrimFloat.eqb;
  s_geb := fun x y => PrimFloat.leb y x;
  s_sqrt := PrimFloat.sqrt;
  s_signbit := double_signbit;
  s_abs := PrimFloat.abs
|}.

(** Decimal digits of a non-negative integer, as [printf] writes them. *)
Definition digits (n : Z) : string :=
  NilZero.string_of_uint (N.to_uint (Z.to_N n)).

(** The integer a finite binary64 value [m * 2^e] denotes, when it is one. *)
Definition integral_value (m : positive) (e : Z) : option Z :=
  match e with
  | Z0 => Some (Zpos m)
  | Zpos p => Some (Z.shiftl (Zpos m) e)
  | Zneg p =>
      if Z.eqb (Z.land (Zpos m) (Z.ones (Zpos p))) 0
      then Some (Z.shiftr (Zpos m) (Zpos p)) else None
  end.

(** [std::ostream << double] with the default format ([%g], precision 6),
    on zeros, infinities and integral values below [10^6], which are written
    as plain digits with the sign in front.  Fractions, larger values and
    NaN (whose sign the model does not keep) are left out. *)
Definition show_double (x : double) : option string :=
  let sign (s : bool) := if s then "-"%string else EmptyString in
  match Prim2SF x with
  | S754_zero s => Some (sign s ++ "0")%string
  | S754_infinity s => Some (sign s ++ "inf")%string
  | S754_nan => None
  | S754_finite s m e =>
      match integral_value m e with
      | Some n => if Z.ltb n 1000000 then Some (sign s ++ digits n)%string else None
      | None => None
      end
  end.

#[export] Instance Printable_double : Printable double := {|
  show := show_double
|}.

(** [std::ostream << double] for every value, up to the digits: the stream
    writes [-] when the sign bit is set and then the text of the absolute
    value.  That text, the work of the number formatter, is the parameter
    [magnitude]. *)
Definition show_double_signed (magnitude : double -> string) (x : double)
    : option string :=
  Some ((if double_signbit x then "-" else EmptyString)
        ++ magnitude (PrimFloat.abs x))%string.

Definition Printable_double_signed (magnitude : double -> string)
    : Printable double :=
  {| show := show_double_signed magnitude |}.

(** *** Exact integers *)

(** An integer scalar without overflow: [/] truncates towards zero as C++
    integer division does, [sqrt] is the integer square root. *)
#[export] Instance Scalar_Z : Scalar Z := {|
  s_of_int := fun z => z;
  s_add := Z.add;
  s_sub := Z.sub;
  s_mul := Z.mul;
  s_div := Z.quot;
  s_neg := Z.opp;
  s_eqb := Z.eqb;
  s_geb := Z.geb;
  s_sqrt := Z.sqrt;
  s_signbit := fun z => Z.ltb z 0;
  s_abs := Z.abs
|}.

(** [std::ostream << int]: decimal digits, [-] in front of a negative. *)
Definition show_Z (z : Z) : option string :=
  Some (NilZero.string_of_int (Z.to_int z)).

#[export] Instance Printable_Z : Printable Z := {|
  show := show_Z
|}.

(** ** [complex<T>] (complex.h) *)

Module Complex.

Record complex (T : Type) : Type := mk {
  real_part : T;
  imaginary_part : T;
  use_electric_syntax : bool  (* output will use j instead of i *)
}.
Arguments mk {T} _ _ _.
Arguments real_part {T} _.
Arguments imaginary_part {T} _.
Arguments use_electric_syntax {T} _.

Section Template.
Context {T : Type} {ST : Scalar T}.
Local Open Scope scalar_scope.

(** The constructor as the operators call it, [complex(re, im)]: the
    third parameter keeps its default, [false]. *)
Definition make (_real_part _imaginary_part : T) : complex T :=
  mk _real_part _imaginary_part false.

(** [complex()]: delegates to [complex(0,0)]. *)
Definition default : complex T := make #0 #0.

Definition Re (this : complex T) : T := real_part this.
Definition Im (this : complex T) : T := imaginary_part this.

Definition UseJInOutput (this : complex T) (flag : bool) : complex T :=
  mk (real_part this) (imaginary_part this) flag.

Definition operator_eq (this rhs : complex T) : bool :=
  (real_part this == real_part rhs)
  && (imaginary_part this == imaginary_part rhs).

Definition conjugate (this : complex T) : complex T :=
  make (real_part this) (- (imaginary_part this)).

Definition operator_add (this rhs : complex T) : complex T :=
  make (real_part this + real_part rhs)
       (imaginary_part this + imaginary_part rhs).

Definition operator_add_scalar (this : complex T) (value : T) : complex T :=
  make (real_part this + value) (imaginary_part this).

Definition operator_sub (this rhs : complex T) : complex T :=
  make (real_part this - real_part rhs)
       (imaginary_part this - imaginary_part rhs).

Definition operator_sub_scalar (this : complex T) (value : T) : complex T :=
  make (real_part this - value) (imaginary_part this).

Definition operator_mul (this rhs : complex T) : complex T :=
  make ((real_part this * real_part rhs)
        - (imaginary_part this * imaginary_part rhs))
       ((real_part this * imaginary_part rhs)
        + (imaginary_part this * real_part rhs)).

Definition operator_mul_scalar (this : complex T) (value : T) : complex T :=
  make (real_part this * value) (imaginary_part this * value).

Definition operator_div (this rhs : complex T) : complex T :=
  let divisor :=
    (real_part rhs * real_part rhs)
    + (imaginary_part rhs * imaginary_part rhs) in
  let real_numerator :=
    (real_part this * real_part rhs)
    + (imaginary_part this * imaginary_part rhs) in
  let imaginary_numerator :=
    (imaginary_part this * real_part rhs)
    - (real_part this * imaginary_part rhs) in
  make (real_numerator / divisor) (imaginary_numerator / divisor).

Definition operator_div_scalar (this : complex T) (value : T) : complex T :=
  make (real_part this / value) (imaginary_part this / value).

(** The principal square root.  [sign_bit] is an [int], converted to
    [T] by the multiplication. *)
Definition sqrt (this : complex T) : complex T :=
  let common :=
    s_sqrt (real_part this * real_part this
            + imaginary_part this * imaginary_part this) in
  let gamma := s_sqrt ((real_part this + common) / #2) in
  let sign_bit : Z := if s_signbit (imaginary_part this) then (-1)%Z else 1%Z in
  let delta := #sign_bit * s_sqrt ((- real_part this + common) / #2) in
  make gamma delta.

Definition norm (this : complex T) : T :=
  s_sqrt ((real_part this * real_part this)
          + (imaginary_part this * imaginary_part this)).

(** [operator<<(std::ostream&, const complex<T>&)].  The stream is the
    text written so far.  The conditional is read as the parenthesised
    [(Im >= 0) ? plus : empty], with the plus sign or the empty string,
    that the line sets out to write. *)
Definition operator_shl {PT : Printable T}
    (out : string) (rhs : complex T) : option string :=
  let complex_tag : ascii := if use_electric_syntax rhs then "j"%char else "i"%char in
  match show (Re rhs), show (Im rhs) with
  | Some re, Some im =>
      Some (out ++ re
                ++ (if Im rhs >= #0 then "+" else EmptyString)
                ++ im ++ String complex_tag EmptyString)%string
  | _, _ => None
  end.

(** The operators with the scalar on the left, [T::operator+] and the
    like: [this] is the scalar. *)
Definition scalar_operator_add (this : T) (value : complex T) : complex T :=
  make (Re value + this) (Im value).

Definition scalar_operator_sub (this : T) (value : complex T) : complex T :=
  make (this - Re value) (- Im value).

Definition scalar_operator_mul (this : T) (value : complex T) : complex T :=
  make (this * Re value) (this * Im value).

Definition scalar_operator_div (this : T) (value : complex T) : complex T :=
  operator_div (make this #0) value.

(** The rendering as the specification words it: the real part, a sign
    character, the absolute value of the imaginary part, the symbol.
    The sign is the ASCII hyphen the stream writes for negatives. *)
Definition rendering_spec {PT : Printable T} (z : complex T) : option string :=
  let symbol : ascii := if use_electric_syntax z then "j"%char else "i"%char in
  match show (real_part z), show (s_abs (imaginary_part z)) with
  | Some re, Some im =>
      Some (re ++ (if imaginary_part z >= #0 then "+" else "-")
               ++ im ++ String symbol EmptyString)%string
  | _, _ => None
  end.

End Template.
End Complex.

(** ** [octonion<T>] (complex.h) *)

Module Octonion.

(** The class has two data members; its constructor takes (and ignores)
    a third parameter. *)
Record octonion (T : Type) : Type := mk {
  real_part : T;
  imaginary_part : T
}.
Arguments mk {T} _ _.
Arguments real_part {T} _.
Arguments imaginary_part {T} _.

Section Template.
Context {T : Type} {ST : Scalar T}.
Local Open Scope scalar_scope.

Definition make (_real_part _imaginary_part : T) : octonion T :=
  mk _real_part _imaginary_part.

Definition default : octonion T := make #0 #0.

Definition Re (this : octonion T) : T := real_part this.
Definition Im (this : octonion T) : T := imaginary_part this.

Definition operator_eq (this rhs : octonion T) : bool :=
  (real_part this == real_part rhs)
  && (imaginary_part this == imaginary_part rhs).

Definition conjugate (this : octonion T) : octonion T :=
  make (real_part this) (- (imaginary_part this)).

Definition operator_add (this rhs : octonion T) : octonion T :=
  make (real_part this + real_part rhs)
       (imaginary_part this + imaginary_part rhs).

Definition operator_add_scalar (this : octonion T) (value : T) : octonion T :=
  make (real_part this + value) (imaginary_part this).

Definition operator_sub (this rhs : octonion T) : octonion T :=
  make (real_part this - real_part rhs)
       (imaginary_part this - imaginary_part rhs).

Definition operator_sub_scalar (this : octonion T) (value : T) : octonion T :=
  make (real_part this - value) (imaginary_part this).

(** The source line lacks the parenthesis that opens the first
    argument; it is read with that parenthesis in place, as in
    [complex<T>::operator*]. *)
Definition operator_mul (this rhs : octonion T) : octonion T :=
  make ((real_part this * real_part rhs)
        - (imaginary_part this * imaginary_part rhs))
       ((real_part this * imaginary_part rhs)
        + (imaginary_part this * real_part rhs)).

Definition operator_mul_scalar (this : octonion T) (value : T) : octonion T :=
  make (real_part this * value) (imaginary_part this * value).

Definition operator_div (this rhs : octonion T) : octonion T :=
  let divisor :=
    (real_part this * real_part this)
    + (imaginary_part this * imaginary_part this) in
  let real_numerator :=
    (real_part this * real_part rhs)
    + (imaginary_part this * imaginary_part rhs) in
  let imaginary_numerator :=
    (imaginary_part rhs * real_part this)
    - (real_part rhs * imaginary_part this) in
  make (real_numerator / divisor) (imaginary_numerator / divisor).

Definition operator_div_scalar (this : octonion T) (value : T) : octonion T :=
  make (real_part this / value) (imaginary_part this / value).

Definition sqrt (this : octonion T) : octonion T :=
  let common :=
    s_sqrt (real_part this * real_part this
            + imaginary_part this * imaginary_part this) in
  let gamma := s_sqrt ((real_part this + common) / #2) in
  let sign_bit : Z := if s_signbit (imaginary_part this) then (-1)%Z else 1%Z in
  let delta := #sign_bit * s_sqrt ((- real_part this + common) / #2) in
  make gamma delta.

End Template.
End Octonion.

(** ** [quaternion<T>] (quaternions.h) *)

Module Quaternion.

Record quaternion (T : Type) : Type := mk {
  real_part : T;
  i_part : T;
  j_part : T;
  k_part : T
}.
Arguments mk {T} _ _ _ _.
Arguments real_part {T} _.
Arguments i_part {T} _.
Arguments j_part {T} _.
Arguments k_part {T} _.

Section Template.
Context {T : Type} {ST : Scalar T}.
Local Open Scope scalar_scope.

Definition make (_real_part i j k : T) : quaternion T :=
  mk _real_part i j k.

Definition default : quaternion T := make #0 #0 #0 #0.

Definition Re (this : quaternion T) : T := real_part this.
Definition Im1 (this : quaternion T) : T := i_part this.
Definition Im2 (this : quaternion T) : T := j_part this.
Definition Im3 (this : quaternion T) : T := k_part this.

(** The source compares [this->i], which is read as [this->i_part]. *)
Definition operator_eq (this rhs : quaternion T) : bool :=
  (real_part this == real_part rhs) && (i_part this == i_part rhs)
  && (j_part this == j_part rhs) && (k_part this == k_part rhs).

Definition conjugate (this : quaternion T) : quaternion T :=
  make (real_part this) (- (i_part this)) (- (j_part this)) (- (k_part this)).

Definition operator_add (this rhs : quaternion T) : quaternion T :=
  make (real_part this + real_part rhs) (i_part this + i_part rhs)
       (j_part this + j_part rhs) (k_part this + j_part rhs).

Definition operator_add_scalar (this : quaternion T) (value : T) : quaternion T :=
  make (real_part this + value) (i_part this) (j_part this) (k_part this).

Definition operator_sub (this rhs : quaternion T) : quaternion T :=
  make (real_part this - real_part rhs) (i_part this - i_part rhs)
       (j_part this - j_part rhs) (k_part this - k_part rhs).

Definition operator_sub_scalar (this : quaternion T) (value : T) : quaternion T :=
  make (real_part this - value) (i_part this) (j_part this) (k_part this).

Definition operator_mul (this rhs : quaternion T) : quaternion T :=
  make
    ((real_part this * real_part rhs) - (i_part this * i_part rhs)
     - (j_part this * j_part rhs) - (k_part this * k_part rhs))
    ((real_part this * i_part rhs) + (i_part this * real_part rhs)
     + (j_part this * k_part rhs) - (k_part this * j_part rhs))
    ((real_part this * j_part rhs) + (j_part this * real_part rhs)
     + (k_part this * i_part rhs) - (i_part this * k_part rhs))
    ((real_part this * k_part rhs) + (k_part this * real_part rhs)
     + (i_part this * j_part rhs) - (j_part this * i_part rhs)).

Definition operator_mul_scalar (this : quaternion T) (value : T) : quaternion T :=
  make (real_part this * value) (i_part this * value)
       (j_part this * value) (k_part this * value).

Definition norm (this : quaternion T) : T :=
  s_sqrt ((real_part this * real_part this) + (i_part this * i_part this)
          + (j_part this * j_part this) + (k_part this * k_part this)).

Definition operator_div_scalar (this : quaternion T) (value : T) : quaternion T :=
  make (real_part this / value) (i_part this / value)
       (j_part this / value) (k_part this / value).

Definition reciprocal (this : quaternion T) : quaternion T :=
  let base := norm this in
  let base := base * base in
  operator_div_scalar this base.

Definition operator_div (this rhs : quaternion T) : quaternion T :=
  operator_mul this (reciprocal rhs).

(** The reciprocal as the specification words it: the conjugate divided
    by the square of the norm. *)
Definition reciprocal_spec (q : quaternion T) : quaternion T :=
  operator_div_scalar (conjugate q) (norm q * norm q).

(** The sum of the squares of the four components. *)
Definition sum_of_squares (q : quaternion T) : T :=
  (real_part q * real_part q) + (i_part q * i_part q)
  + (j_part q * j_part q) + (k_part q * k_part q).

End Template.
End Quaternion.

(** ** Comparing the two-component classes *)

(** An octonion value and a complex value agree when their components do. *)
Definition agree {T : Type} {ST : Scalar T}
    (o : Octonion.octonion T) (z : Complex.complex T) : Prop :=
  Octonion.Re o = Complex.Re z /\ Octonion.Im o = Complex.Im z.

(** * Properties *)

(** ** Formulas that hold for every scalar type *)

Section Formulas.
Context {T : Type} {ST : Scalar T}.
Local Open Scope scalar_scope.

(** Every operator builds its result with the two-argument constructor,
    so the result never carries the display flag of an operand. *)
Lemma complex_result_flag (z w : Complex.complex T) :
  Complex.use_electric_syntax (Complex.operator_div z w) = false
  /\ Complex.use_electric_syntax (Complex.operator_add z w) = false
  /\ Complex.use_electric_syntax (Complex.sqrt z) = false.
Proof. repeat split. Qed.

(** The sum of two quaternions, component by component, as the code
    computes it: the last component adds the [j] part of the right
    operand. *)
Lemma quaternion_add_components (p q : Quaternion.quaternion T) :
  Quaternion.Re (Quaternion.operator_add p q) = Quaternion.Re p + Quaternion.Re q
  /\ Quaternion.Im1 (Quaternion.operator_add p q) = Quaternion.Im1 p + Quaternion.Im1 q
  /\ Quaternion.Im2 (Quaternion.operator_add p q) = Quaternion.Im2 p + Quaternion.Im2 q
  /\ Quaternion.Im3 (Quaternion.operator_add p q) = Quaternion.Im3 p + Quaternion.Im2 q.
Proof. repeat split. Qed.

(** [reciprocal] divides the quaternion itself, not its conjugate, by
    the square of the norm. *)
Lemma quaternion_reciprocal_components (q : Quaternion.quaternion T) :
  let n := Quaternion.norm q in
  Quaternion.reciprocal q
  = Quaternion.make (Quaternion.Re q / (n * n)) (Quaternion.Im1 q / (n * n))
                    (Quaternion.Im2 q / (n * n)) (Quaternion.Im3 q / (n * n)).
Proof. reflexivity. Qed.

(** Octonion division as the code computes it, for [(a,b) / (c,d)]: the
    divisor is built from the left operand. *)
Lemma octonion_div_components (a b c d : T) :
  Octonion.operator_div (Octonion.make a b) (Octonion.make c d)
  = Octonion.make ((a * c + b * d) / (a * a + b * b))
                  ((d * a - c * b) / (a * a + b * b)).
Proof. reflexivity. Qed.

(** Octonion multiplication computes the formula of the complex one. *)
Lemma octonion_mul_components (a b c d : T) :
  Octonion.operator_mul (Octonion.make a b) (Octonion.make c d)
  = Octonion.make (a * c - b * d) (a * d + b * c)
  /\ Complex.operator_mul (Complex.make a b) (Complex.make c d)
     = Complex.make (a * c - b * d) (a * d + b * c).
Proof. split; reflexivity. Qed.

(** Apart from division by an octonion, every octonion operator computes
    what the complex operator of the same name computes on the same
    components.  (The octonion class has no [norm].) *)
Lemma octonion_agrees_with_complex (a b c d s : T) :
  let o1 := Octonion.make a b in
  let o2 := Octonion.make c d in
  let z1 := Complex.make a b in
  let z2 := Complex.make c d in
  agree (Octonion.conjugate o1) (Complex.conjugate z1)
  /\ agree (Octonion.operator_add o1 o2) (Complex.operator_add z1 z2)
  /\ agree (Octonion.operator_sub o1 o2) (Complex.operator_sub z1 z2)
  /\ agree (Octonion.operator_mul o1 o2) (Complex.operator_mul z1 z2)
  /\ agree (Octonion.operator_add_scalar o1 s) (Complex.operator_add_scalar z1 s)
  /\ agree (Octonion.operator_sub_scalar o1 s) (Complex.operator_sub_scalar z1 s)
  /\ agree (Octonion.operator_mul_scalar o1 s) (Complex.operator_mul_scalar z1 s)
  /\ agree (Octonion.operator_div_scalar o1 s) (Complex.operator_div_scalar z1 s)
  /\ agree (Octonion.sqrt o1) (Complex.sqrt z1)
  /\ Octonion.operator_eq o1 o2 = Complex.operator_eq z1 z2.
Proof. cbv zeta. unfold agree. repeat split. Qed.

End Formulas.

(** ** Addition over a scalar type with lawful addition *)

Section LawfulAddition.
Context {T : Type} {ST : Scalar T}.
Local Open Scope scalar_scope.
Hypothesis add_comm : forall x y : T, x + y = y + x.
Hypothesis add_assoc : forall x y z : T, x + (y + z) = (x + y) + z.

Lemma complex_add_comm (a b : Complex.complex T) :
  Complex.operator_add a b = Complex.operator_add b a.
Proof.
  unfold Complex.operator_add.
  rewrite (add_comm (Complex.real_part a)), (add_comm (Complex.imaginary_part a)).
  reflexivity.
Qed.

Lemma complex_add_assoc (a b c : Complex.complex T) :
  Complex.operator_add a (Complex.operator_add b c)
  = Complex.operator_add (Complex.operator_add a b) c.
Proof.
  unfold Complex.operator_add, Complex.make; cbn.
  rewrite !add_assoc. reflexivity.
Qed.

Lemma octonion_add_comm (a b : Octonion.octonion T) :
  Octonion.operator_add a b = Octonion.operator_add b a.
Proof.
  unfold Octonion.operator_add.
  rewrite (add_comm (Octonion.real_part a)), (add_comm (Octonion.imaginary_part a)).
  reflexivity.
Qed.

Lemma octonion_add_assoc (a b c : Octonion.octonion T) :
  Octonion.operator_add a (Octonion.operator_add b c)
  = Octonion.operator_add (Octonion.operator_add a b) c.
Proof.
  unfold Octonion.operator_add, Octonion.make; cbn.
  rewrite !add_assoc. reflexivity.
Qed.

(** The misplaced [j_part] leaves quaternion addition associative. *)
Lemma quaternion_add_assoc (a b c : Quaternion.quaternion T) :
  Quaternion.operator_add a (Quaternion.operator_add b c)
  = Quaternion.operator_add (Quaternion.operator_add a b) c.
Proof.
  unfold Quaternion.operator_add, Quaternion.make; cbn.
  rewrite !add_assoc. reflexivity.
Qed.

End LawfulAddition.

(** ** Facts about [double] *)

Section DoubleFacts.
Local Open Scope float_scope.

(** IEEE addition is commutative... *)
Lemma SFadd_comm (prec emax : Z) (x y : spec_float) :
  SFadd prec emax x y = SFadd prec emax y x.
Proof.
  destruct x as [sx|sx| |sx mx ex], y as [sy|sy| |sy my ey]; cbn;
    try reflexivity; try (destruct sx, sy; reflexivity).
  rewrite Z.min_comm, Z.add_comm. reflexivity.
Qed.

Lemma double_add_comm (x y : double) : s_add x y = s_add y x.
Proof.
  apply Prim2SF_inj. cbn. rewrite !add_spec. apply SFadd_comm.
Qed.

(** ... and not associative: [1 + (2^54 + -2^54)] is [1], while
    [(1 + 2^54) + -2^54] is [0]. *)
Lemma double_add_not_assoc :
  s_add 1 (s_add 0x1p54 (-0x1p54)) = 1
  /\ s_add (s_add 1 0x1p54) (-0x1p54) = 0.
Proof. split; vm_compute; reflexivity. Qed.

Lemma binary_round_aux_pos (prec emax mx ex : Z) (lx : location) :
  nonneg_or_nan (binary_round_aux prec emax false mx ex lx) = true.
Proof.
  unfold binary_round_aux.
  destruct (shr_fexp prec emax mx ex lx) as [mrs' e'].
  destruct (shr_fexp prec emax _ e' loc_Exact) as [mrs'' e''].
  destruct (shr_m mrs''); try reflexivity.
  destruct (Z.leb e'' (Z.sub emax prec)); reflexivity.
Qed.

Lemma SFsqrt_nonneg_or_nan (prec emax : Z) (x : spec_float) :
  nonneg_or_nan (SFsqrt prec emax x) = true.
Proof.
  destruct x as [s|s| |s m e]; cbn; try reflexivity.
  - destruct s; reflexivity.
  - destruct s; try reflexivity.
    destruct (SFsqrt_core_binary prec emax (Zpos m) e) as [[mz ez] lz].
    apply binary_round_aux_pos.
Qed.

(** [std::sqrt] never returns a negative value: the result compares
    [>= 0] unless it is NaN. *)
Lemma double_sqrt_nonneg_or_nan (x : double) :
  s_geb (s_sqrt x) (s_of_int 0) = true \/ is_nan (s_sqrt x) = true.
Proof.
  cbn. unfold is_nan. rewrite leb_spec, eqb_spec, sqrt_spec.
  change (Prim2SF zero) with (S754_zero false).
  pose proof (SFsqrt_nonneg_or_nan prec emax (Prim2SF x)) as H.
  unfold SF64sqrt.
  destruct (SFsqrt prec emax (Prim2SF x)) as [s|s| |s m e]; cbn in H |- *.
  - left; reflexivity.
  - destruct s; [discriminate|left; reflexivity].
  - right; reflexivity.
  - destruct s; [discriminate|left; reflexivity].
Qed.


(** A value that is not NaN compares equal to itself. *)
Lemma SFeqb_refl (x : spec_float) :
  x <> S754_nan -> SFeqb x x = true.
Proof.
  destruct x as [s|s| |s m e]; intros H; unfold SFeqb; cbn.
  - reflexivity.
  - destruct s; reflexivity.
  - contradiction H; reflexivity.
  - destruct s; rewrite Z.compare_refl, Pos.compare_cont_refl; reflexivity.
Qed.

Lemma double_eqb_refl (x : double) :
  is_nan x = false -> s_eqb x x = true.
Proof.
  unfold is_nan. cbn. destruct (x =? x); [reflexivity|discriminate].
Qed.

(** [0 - b] is [-b], but for [b = +0.0], where it is [+0.0] and [-b] is
    [-0.0]; the two compare equal. *)
Lemma double_zero_sub (b : double) :
  (b <> 0 -> s_sub (s_of_int 0) b = s_neg b)
  /\ (is_nan b = false -> s_eqb (s_neg b) (s_sub (s_of_int 0) b) = true).
Proof.
  assert (Hspec : Prim2SF (0 - b) = SFsub prec emax (S754_zero false) (Prim2SF b))
    by (rewrite sub_spec; reflexivity).
  split.
  - intros Hb. apply Prim2SF_inj. cbn. rewrite Hspec, opp_spec.
    destruct (Prim2SF b) as [s|s| |s m e] eqn:E; cbn; try reflexivity.
    destruct s; [reflexivity|].
    contradiction Hb. apply Prim2SF_inj. rewrite E. reflexivity.
  - unfold is_nan. cbn. rewrite !eqb_spec, Hspec, opp_spec.
    destruct (Prim2SF b) as [s|s| |s m e]; intros Hn.
    + destruct s; reflexivity.
    + apply SFeqb_refl. discriminate.
    + discriminate Hn.
    + apply SFeqb_refl. discriminate.
Qed.

(** On [double], [s - z] compares equal to the complex difference of
    (s,0) and z, NaN components apart. *)
Lemma double_scalar_left_sub_is_difference (s : double) (z : Complex.complex double) :
  is_nan (s_sub s (Complex.Re z)) = false ->
  is_nan (Complex.Im z) = false ->
  Complex.operator_eq (Complex.scalar_operator_sub s z)
                      (Complex.operator_sub (Complex.make s (s_of_int 0)) z) = true.
Proof.
  intros Hre Him. unfold Complex.operator_eq; cbn.
  apply andb_true_intro; split.
  - exact (double_eqb_refl _ Hre).
  - exact (proj2 (double_zero_sub (Complex.imaginary_part z)) Him).
Qed.

End DoubleFacts.

(** ** Division and multiplication formulas *)

(** C5: dividing the complex value (a,b) by (c,d) gives the real component
    (a*c+b*d)/(c*c+d*d) and the imaginary component (b*c-a*d)/(c*c+d*d),
    for every scalar type; on [double], (1,0) divided by (0,1) is (0,-1)
    and compares equal to it. *)
Theorem complex_div_formula :
  (forall (T : Type) (ST : Scalar T) (z w : Complex.complex T),
      let a := Complex.Re z in
      let b := Complex.Im z in
      let c := Complex.Re w in
      let d := Complex.Im w in
      Complex.Re (Complex.operator_div z w)
      = ((a * c + b * d) / (c * c + d * d))%S
      /\ Complex.Im (Complex.operator_div z w)
         = ((b * c - a * d) / (c * c + d * d))%S)
  /\ Complex.operator_div (Complex.make 1%float 0%float) (Complex.make 0%float 1%float)
     = Complex.make 0%float (-1)%float
  /\ Complex.operator_eq
       (Complex.operator_div (Complex.make 1%float 0%float) (Complex.make 0%float 1%float))
       (Complex.make 0%float (-1)%float) = true.
Proof.
  split; [|split].
  - intros T ST z w; cbn; split; reflexivity.
  - vm_compute; reflexivity.
  - vm_compute; reflexivity.
Qed.

(** C6: the product of the quaternions (a,b,c,d) and (a',b',c',d') is the
    Hamilton product, component by component; on [double], i*j is k and
    j*i is -k. *)
Theorem quaternion_mul_hamilton :
  (forall (T : Type) (ST : Scalar T) (a b c d a' b' c' d' : T),
      Quaternion.operator_mul (Quaternion.make a b c d) (Quaternion.make a' b' c' d')
      = Quaternion.make
          (a * a' - b * b' - c * c' - d * d')%S
          (a * b' + b * a' + c * d' - d * c')%S
          (a * c' + c * a' + d * b' - b * d')%S
          (a * d' + d * a' + b * c' - c * b')%S)
  /\ Quaternion.operator_mul (Quaternion.make 0%float 1%float 0%float 0%float)
       (Quaternion.make 0%float 0%float 1%float 0%float)
     = Quaternion.make 0%float 0%float 0%float 1%float
  /\ Quaternion.operator_mul (Quaternion.make 0%float 0%float 1%float 0%float)
       (Quaternion.make 0%float 1%float 0%float 0%float)
     = Quaternion.make 0%float 0%float 0%float (-1)%float.
Proof.
  split; [|split].
  - intros; reflexivity.
  - vm_compute; reflexivity.
  - vm_compute; reflexivity.
Qed.

(** ** Scalar operands *)

(** C8: adding a scalar to, or subtracting it from, a complex value, a
    quaternion or an octonion changes the real component only: every
    imaginary component of the result is that of the operand. *)
Theorem scalar_add_sub_frame :
  forall (T : Type) (ST : Scalar T) (s : T),
    (forall x : Complex.complex T,
        Complex.Im (Complex.operator_add_scalar x s) = Complex.Im x
        /\ Complex.Im (Complex.operator_sub_scalar x s) = Complex.Im x
        /\ Complex.Re (Complex.operator_add_scalar x s) = (Complex.Re x + s)%S
        /\ Complex.Re (Complex.operator_sub_scalar x s) = (Complex.Re x - s)%S)
    /\ (forall x : Quaternion.quaternion T,
        let y := Quaternion.operator_add_scalar x s in
        let y' := Quaternion.operator_sub_scalar x s in
        (Quaternion.Im1 y = Quaternion.Im1 x /\ Quaternion.Im2 y = Quaternion.Im2 x
         /\ Quaternion.Im3 y = Quaternion.Im3 x)
        /\ (Quaternion.Im1 y' = Quaternion.Im1 x /\ Quaternion.Im2 y' = Quaternion.Im2 x
            /\ Quaternion.Im3 y' = Quaternion.Im3 x)
        /\ Quaternion.Re y = (Quaternion.Re x + s)%S
        /\ Quaternion.Re y' = (Quaternion.Re x - s)%S)
    /\ (forall x : Octonion.octonion T,
        Octonion.Im (Octonion.operator_add_scalar x s) = Octonion.Im x
        /\ Octonion.Im (Octonion.operator_sub_scalar x s) = Octonion.Im x
        /\ Octonion.Re (Octonion.operator_add_scalar x s) = (Octonion.Re x + s)%S
        /\ Octonion.Re (Octonion.operator_sub_scalar x s) = (Octonion.Re x - s)%S).
Proof.
  intros T ST s. split; [|split]; intros x; cbn; repeat split.
Qed.

(** C10: with the scalar on the left, [s - z] is (s - a, -b) for
    z = (a,b): the imaginary component is negated; [s + z] is (a + s, b),
    the imaginary component unchanged.  Where scalar addition commutes, as
    it does on [double], the sum is (s + a, b), and where [0 - x] is [-x]
    the difference is the complex difference of (s,0) and z. *)
Theorem scalar_left_sub_add :
  (forall (T : Type) (ST : Scalar T) (s : T) (z : Complex.complex T),
      let a := Complex.Re z in
      let b := Complex.Im z in
      Complex.scalar_operator_sub s z = Complex.make (s - a)%S (- b)%S
      /\ Complex.scalar_operator_add s z = Complex.make (a + s)%S b
      /\ ((forall x y : T, (x + y = y + x)%S) ->
          Complex.scalar_operator_add s z = Complex.make (s + a)%S b)
      /\ ((forall x : T, (#0 - x = - x)%S) ->
          Complex.scalar_operator_sub s z
          = Complex.operator_sub (Complex.make s (#0)%S) z))
  /\ (forall (s : double) (z : Complex.complex double),
        Complex.scalar_operator_add s z
        = Complex.make (s + Complex.Re z)%S (Complex.Im z)).
Proof.
  split.
  - intros T ST s z a b. repeat split.
    + intros Hc. unfold Complex.scalar_operator_add. rewrite Hc. reflexivity.
    + intros H0. unfold Complex.scalar_operator_sub, Complex.operator_sub.
      cbn. rewrite H0. reflexivity.
  - intros s z. unfold Complex.scalar_operator_add.
    rewrite double_add_comm. reflexivity.
Qed.

(** On integers: 5 - (1 + 2i) is 4 - 2i and equals (5 + 0i) - (1 + 2i);
    5 + (1 + 2i) is 6 + 2i. *)
Lemma scalar_left_sub_add_witness :
  Complex.scalar_operator_sub 5%Z (Complex.make 1%Z 2%Z) = Complex.make 4%Z (-2)%Z
  /\ Complex.scalar_operator_add 5%Z (Complex.make 1%Z 2%Z) = Complex.make 6%Z 2%Z
  /\ Complex.scalar_operator_sub 5%Z (Complex.make 1%Z 2%Z)
     = Complex.operator_sub (Complex.make 5%Z 0%Z) (Complex.make 1%Z 2%Z).
Proof.
  destruct (proj1 scalar_left_sub_add Z Scalar_Z 5%Z (Complex.make 1%Z 2%Z))
    as (Hsub & _ & Hadd & Hdiff).
  split; [exact Hsub|split].
  - exact (Hadd Z.add_comm).
  - exact (Hdiff (fun x => eq_refl)).
Defined.

(** ** Quaternion addition and reciprocal, octonion division *)

(** C2: the sum of the quaternions (0,0,0,0) and (0,0,1,0) on [double] is
    (0,0,1,1): its k component is the k component of the left operand plus
    the j component of the right one, 0 + 1, and not 0 + 0, the sum of the
    two k components. *)
Theorem quaternion_add_k_component :
  let p := Quaternion.make 0%float 0%float 0%float 0%float in
  let q := Quaternion.make 0%float 0%float 1%float 0%float in
  Quaternion.operator_add p q = Quaternion.make 0%float 0%float 1%float 1%float
  /\ Quaternion.Im3 (Quaternion.operator_add p q) = 1%float
  /\ s_add (Quaternion.Im3 p) (Quaternion.Im3 q) = 0%float
  /\ Quaternion.operator_sub p q
     = Quaternion.make 0%float 0%float (-1)%float 0%float.
Proof. repeat split; vm_compute; reflexivity. Qed.

(** C1: the reciprocal of the quaternion i = (0,1,0,0) on [double] is
    (0,1,0,0), i itself: the i component is 1/1 and not the negated -1/1
    of the conjugate divided by the squared norm, which is (0,-1,-0,-0);
    the two do not compare equal, and i divided by i comes out as
    (-1,0,0,0). *)
Theorem quaternion_reciprocal_at_i :
  let q := Quaternion.make 0%float 1%float 0%float 0%float in
  Quaternion.reciprocal q = Quaternion.make 0%float 1%float 0%float 0%float
  /\ Quaternion.reciprocal_spec q
     = Quaternion.make 0%float (-1)%float (-0)%float (-0)%float
  /\ Quaternion.Im1 (Quaternion.reciprocal q) = 1%float
  /\ s_div (s_neg (Quaternion.Im1 q)) (Quaternion.sum_of_squares q) = (-1)%float
  /\ Quaternion.operator_eq (Quaternion.reciprocal q) (Quaternion.reciprocal_spec q)
     = false
  /\ Quaternion.operator_div q q
     = Quaternion.make (-1)%float 0%float 0%float 0%float.
Proof. repeat split; vm_compute; reflexivity. Qed.

(** C4: dividing the octonion (2,0) by (0,1) on [double] gives (0,0.5):
    the divisor is the squared norm 4 of the left operand and the
    imaginary numerator is d*a - c*b = 2.  Complex division of the same
    components gives (0,-2), dividing b*c - a*d = -2 by the squared norm 1
    of the right operand. *)
Theorem octonion_div_at_2_i :
  Octonion.operator_div (Octonion.make 2%float 0%float) (Octonion.make 0%float 1%float)
  = Octonion.make 0%float 0.5%float
  /\ Complex.operator_div (Complex.make 2%float 0%float) (Complex.make 0%float 1%float)
     = Complex.make 0%float (-2)%float
  /\ s_eqb 0.5%float (-2)%float = false.
Proof. repeat split; vm_compute; reflexivity. Qed.

(** ** Commutativity and associativity of addition *)

(** C3, as stated, fails: on [double], complex addition of 1, 2^54 and
    -2^54 gives 1 when grouped to the right and 0 when grouped to the left,
    and the sums do not compare equal; and the quaternions (0,0,1,0) and
    (0,0,0,0) add to (0,0,1,0) in one order and to (0,0,1,1) in the other. *)
Lemma addition_laws_counterexample :
  (let a := Complex.make 1%float 0%float in
   let b := Complex.make 0x1p54%float 0%float in
   let c := Complex.make (-0x1p54)%float 0%float in
   Complex.operator_add a (Complex.operator_add b c) = Complex.make 1%float 0%float
   /\ Complex.operator_add (Complex.operator_add a b) c = Complex.make 0%float 0%float
   /\ Complex.operator_eq (Complex.operator_add a (Complex.operator_add b c))
                          (Complex.operator_add (Complex.operator_add a b) c) = false)
  /\ (let p := Quaternion.make 0%float 0%float 1%float 0%float in
      let q := Quaternion.make 0%float 0%float 0%float 0%float in
      Quaternion.operator_add p q = Quaternion.make 0%float 0%float 1%float 0%float
      /\ Quaternion.operator_add q p = Quaternion.make 0%float 0%float 1%float 1%float
      /\ Quaternion.operator_eq (Quaternion.operator_add p q)
                                (Quaternion.operator_add q p) = false).
Proof. repeat split; vm_compute; reflexivity. Qed.

(** C3, amended: over a scalar type whose addition is commutative, complex
    and octonion addition are commutative; over a scalar type whose
    addition is associative, complex, octonion and quaternion addition
    are associative. *)
Theorem addition_laws :
  forall (T : Type) (ST : Scalar T),
    ((forall x y : T, (x + y = y + x)%S) ->
     (forall a b : Complex.complex T,
         Complex.operator_add a b = Complex.operator_add b a)
     /\ (forall a b : Octonion.octonion T,
         Octonion.operator_add a b = Octonion.operator_add b a))
    /\ ((forall x y z : T, (x + (y + z) = (x + y) + z)%S) ->
        (forall a b c : Complex.complex T,
            Complex.operator_add a (Complex.operator_add b c)
            = Complex.operator_add (Complex.operator_add a b) c)
        /\ (forall a b c : Octonion.octonion T,
            Octonion.operator_add a (Octonion.operator_add b c)
            = Octonion.operator_add (Octonion.operator_add a b) c)
        /\ (forall a b c : Quaternion.quaternion T,
            Quaternion.operator_add a (Quaternion.operator_add b c)
            = Quaternion.operator_add (Quaternion.operator_add a b) c)).
Proof.
  intros T ST. split.
  - intros Hc. split; intros.
    + apply complex_add_comm; assumption.
    + apply octonion_add_comm; assumption.
  - intros Ha. repeat split; intros.
    + apply complex_add_assoc; assumption.
    + apply octonion_add_assoc; assumption.
    + apply quaternion_add_assoc; assumption.
Qed.

(** On integers: (1 + 2i) + (3 - i) and (3 - i) + (1 + 2i) are the same
    value, 4 + i, and the two groupings of 1 + 2i, 3 - i and 5 agree. *)
Lemma addition_laws_witness :
  Complex.operator_add (Complex.make 1%Z 2%Z) (Complex.make 3%Z (-1)%Z)
  = Complex.operator_add (Complex.make 3%Z (-1)%Z) (Complex.make 1%Z 2%Z)
  /\ Complex.operator_add (Complex.make 3%Z (-1)%Z) (Complex.make 1%Z 2%Z)
     = Complex.make 4%Z 1%Z
  /\ Complex.operator_add (Complex.make 1%Z 2%Z)
       (Complex.operator_add (Complex.make 3%Z (-1)%Z) (Complex.make 5%Z 0%Z))
     = Complex.operator_add
         (Complex.operator_add (Complex.make 1%Z 2%Z) (Complex.make 3%Z (-1)%Z))
         (Complex.make 5%Z 0%Z).
Proof.
  destruct (@addition_laws Z Scalar_Z) as [Hc Ha].
  split; [|split].
  - exact (proj1 (Hc Z.add_comm) _ _).
  - reflexivity.
  - exact (proj1 (Ha Z.add_assoc) _ _ _).
Defined.

(** On [double], whose addition commutes, complex and octonion addition
    commute as well. *)
Lemma double_complex_octonion_add_comm :
  (forall a b : Complex.complex double,
      Complex.operator_add a b = Complex.operator_add b a)
  /\ (forall a b : Octonion.octonion double,
      Octonion.operator_add a b = Octonion.operator_add b a).
Proof.
  split; intros a b.
  - apply complex_add_comm, double_add_comm.
  - apply octonion_add_comm, double_add_comm.
Qed.

(** ** The principal square root *)



(** ** Textual rendering *)

(** C9, as stated, fails on [double]: (1, -0.0) is written as [1+-0i],
    since -0.0 compares [>= 0] and the stream writes it with its sign;
    the real part, the sign character and the absolute value would read
    [1+0i]. *)
Lemma rendering_negative_zero :
  let z := Complex.make 1%float (-0)%float in
  Complex.operator_shl EmptyString z = Some "1+-0i"%string
  /\ Complex.rendering_spec z = Some "1+0i"%string
  /\ s_geb (Complex.Im z) (s_of_int 0) = true
  /\ String.eqb "1+-0i" "1+0i" = false.
Proof. repeat split; vm_compute; reflexivity. Qed.

(** On integers the two texts agree for every value. *)
Lemma rendering_on_integers (out : string) (z : Complex.complex Z) :
  Complex.operator_shl out z
  = option_map (String.append out) (Complex.rendering_spec z).
Proof.
  destruct z as [a b e].
  unfold Complex.operator_shl, Complex.rendering_spec, Complex.Re, Complex.Im.
  cbn. destruct b as [|p|p]; reflexivity.
Qed.

(** The length of a concatenation. *)
Lemma string_length_append (a b : string) :
  String.length (a ++ b) = (String.length a + String.length b)%nat.
Proof.
  induction a as [|ch a IH]; cbn; [reflexivity|]. rewrite IH. reflexivity.
Qed.

(** The absolute value has a clear sign bit and is its own absolute
    value. *)
Lemma double_abs_idempotent (x : double) :
  PrimFloat.abs (PrimFloat.abs x) = PrimFloat.abs x
  /\ double_signbit (PrimFloat.abs x) = false.
Proof.
  split.
  - apply Prim2SF_inj. rewrite !abs_spec.
    destruct (Prim2SF x) as [s|s| |s m e]; reflexivity.
  - unfold double_signbit. rewrite abs_spec.
    destruct (Prim2SF x) as [s|s| |s m e]; reflexivity.
Qed.

(** The sign bit of a [double] is the negation of [>= 0] for every value
    but negative zero and NaN. *)
Lemma double_signbit_geb (b : double) :
  s_signbit b = negb (s_geb b (s_of_int 0))
  <-> (is_nan b = false /\ b <> (-0)%float).
Proof.
  cbn. unfold double_signbit, is_nan. rewrite leb_spec, eqb_spec.
  change (Prim2SF zero) with (S754_zero false).
  split.
  - intros H. split.
    + destruct (Prim2SF b) as [s|s| |s m e]; try reflexivity;
        try (destruct s; reflexivity).
      * discriminate H.
      * destruct s; unfold SFeqb; cbn;
          rewrite Z.compare_refl, Pos.compare_cont_refl; reflexivity.
    + intros ->. discriminate H.
  - intros [Hn Hz].
    destruct (Prim2SF b) as [s|s| |s m e] eqn:E.
    + destruct s; [|reflexivity].
      contradiction Hz. apply Prim2SF_inj. rewrite E. reflexivity.
    + destruct s; reflexivity.
    + discriminate Hn.
    + destruct s; reflexivity.
Qed.

(** The formatter modelled on zeros, infinities and small integral values
    has the shape of [show_double_signed]: the sign, then the text of the
    absolute value. *)
Lemma show_double_sign_magnitude (x : double) (t : string) :
  show_double x = Some t ->
  exists m : string,
    show_double (PrimFloat.abs x) = Some m
    /\ t = ((if double_signbit x then "-" else EmptyString) ++ m)%string.
Proof.
  unfold show_double, double_signbit. rewrite abs_spec.
  destruct (Prim2SF x) as [s|s| |s m e]; cbn.
  - intros H; injection H as <-. eexists; split; reflexivity.
  - intros H; injection H as <-. eexists; split; reflexivity.
  - discriminate.
  - destruct (integral_value m e) as [n|]; [|discriminate].
    destruct (Z.ltb n 1000000); [|discriminate].
    intros H; injection H as <-. eexists; split; reflexivity.
Qed.

(** C9, amended: rendering a complex value (a,b) appends to the stream the
    text of a, then "+" when b >= 0 and nothing otherwise, then the text of
    b itself, then 'i', or 'j' when the display flag is set.  This is the
    text of a, a sign character ("+" when b >= 0, "-" otherwise), the text
    of the absolute value of b and the symbol: whenever the text of b is
    that of its absolute value, after "-" when b is not >= 0; hence for
    every integer b; and for every [double] b other than negative zero and
    NaN, the stream writing a [double] as its sign followed by the text of
    its absolute value.  For the [double] negative zero it is not. *)
Theorem rendering_text :
  (forall (T : Type) (ST : Scalar T) (PT : Printable T)
          (out : string) (z : Complex.complex T) (re im : string),
      show (Complex.Re z) = Some re ->
      show (Complex.Im z) = Some im ->
      let plus := (if (Complex.Im z >= #0)%S then "+" else EmptyString)%string in
      let symbol := (if Complex.use_electric_syntax z then "j" else "i")%string in
      Complex.operator_shl out z = Some (out ++ re ++ plus ++ im ++ symbol)%string
      /\ (forall mag : string,
            show (s_abs (Complex.Im z)) = Some mag ->
            im = ((if (Complex.Im z >= #0)%S then EmptyString else "-") ++ mag)%string ->
            Complex.operator_shl out z
            = option_map (String.append out) (Complex.rendering_spec z)))
  /\ (forall (out : string) (z : Complex.complex Z),
        Complex.operator_shl out z
        = option_map (String.append out) (Complex.rendering_spec z)
        /\ exists t : string, Complex.operator_shl out z = Some t)
  /\ (forall (magnitude : double -> string) (out : string)
             (z : Complex.complex double),
        is_nan (Complex.Im z) = false ->
        Complex.Im z <> (-0)%float ->
        Complex.operator_shl (PT := Printable_double_signed magnitude) out z
        = option_map (String.append out)
            (Complex.rendering_spec (PT := Printable_double_signed magnitude) z)
        /\ exists t : string,
             Complex.operator_shl (PT := Printable_double_signed magnitude) out z
             = Some t)
  /\ (forall (magnitude : double -> string) (out : string)
             (z : Complex.complex double),
        Complex.Im z = (-0)%float ->
        Complex.operator_shl (PT := Printable_double_signed magnitude) out z
        <> option_map (String.append out)
             (Complex.rendering_spec (PT := Printable_double_signed magnitude) z)).
Proof.
  split; [|split; [|split]].
  - intros T ST PT out z re im Hre Him plus symbol.
    unfold Complex.operator_shl, Complex.rendering_spec, plus, symbol.
    unfold Complex.Re, Complex.Im in *.
    rewrite Hre, Him. split.
    + destruct (Complex.use_electric_syntax z); reflexivity.
    + intros mag Hmag ->. rewrite Hmag.
      destruct (Complex.imaginary_part z >= #0)%S; reflexivity.
  - intros out z. split; [apply rendering_on_integers|].
    unfold Complex.operator_shl. cbn. eexists; reflexivity.
  - intros magnitude out z Hnan Hz.
    pose proof (proj2 (double_signbit_geb (Complex.Im z)) (conj Hnan Hz)) as Hs.
    unfold Complex.operator_shl, Complex.rendering_spec, Complex.Re, Complex.Im in *.
    cbn [show Printable_double_signed]. unfold show_double_signed.
    cbn [s_abs Scalar_double].
    destruct (double_abs_idempotent (Complex.imaginary_part z)) as [-> ->].
    cbn [s_signbit Scalar_double] in Hs. rewrite Hs.
    split; [|eexists; reflexivity].
    destruct (s_geb (Complex.imaginary_part z) (s_of_int 0)); reflexivity.
  - intros magnitude out z Hz Heq.
    unfold Complex.operator_shl, Complex.rendering_spec, Complex.Re, Complex.Im in *.
    cbn [show Printable_double_signed] in Heq. unfold show_double_signed in Heq.
    cbn [s_abs Scalar_double] in Heq.
    rewrite Hz in Heq.
    change (PrimFloat.abs (-0)%float) with 0%float in Heq.
    change (double_signbit (-0)%float) with true in Heq.
    change (double_signbit 0%float) with false in Heq.
    change (s_geb (-0)%float (s_of_int 0)) with true in Heq.
    cbn [option_map] in Heq. injection Heq as Heq.
    apply (f_equal String.length) in Heq.
    rewrite !string_length_append in Heq. cbn in Heq. lia.
Qed.

(** On integers: 1 - 2i is written as [1-2i], which is also its real part,
    "-", the absolute value 2 and the symbol.  On [double], with any text
    for the magnitudes, -2 as imaginary part is written as the sign
    character and the magnitude of 2. *)
Lemma rendering_text_witness :
  Complex.operator_shl EmptyString (Complex.make 1%Z (-2)%Z) = Some "1-2i"%string
  /\ Complex.operator_shl EmptyString (Complex.make 1%Z (-2)%Z)
     = option_map (String.append EmptyString)
         (Complex.rendering_spec (Complex.make 1%Z (-2)%Z))
  /\ Complex.operator_shl (PT := Printable_double_signed (fun _ => "#"%string))
       EmptyString (Complex.make 1%float (-2)%float)
     = option_map (String.append EmptyString)
         (Complex.rendering_spec (PT := Printable_double_signed (fun _ => "#"%string))
            (Complex.make 1%float (-2)%float)).
Proof.
  destruct rendering_text as (Hgen & _ & Hdouble & _).
  destruct (Hgen Z Scalar_Z Printable_Z EmptyString
              (Complex.make 1%Z (-2)%Z) "1"%string "-2"%string eq_refl eq_refl)
    as [Htext Hspec].
  split; [exact Htext|split].
  - exact (Hspec "2"%string eq_refl eq_refl).
  - refine (proj1 (Hdouble (fun _ => "#"%string) EmptyString
                     (Complex.make 1%float (-2)%float) eq_refl _)).
    intros H. apply (f_equal Prim2SF) in H. vm_compute in H. discriminate H.
Defined.

(** * Further properties of the three classes *)

(** ** Over a scalar type that is a commutative ring *)

Section RingScalar.
Context {T : Type} {ST : Scalar T}.
Local Open Scope scalar_scope.
Hypothesis Tring : ring_theory (#0) (#1) s_add s_mul s_sub s_neg (@eq T).
Add Ring TRing : Tring.

Ltac complex_ring :=
  unfold Complex.operator_mul, Complex.operator_add, Complex.operator_sub,
    Complex.operator_add_scalar, Complex.operator_sub_scalar,
    Complex.operator_mul_scalar, Complex.conjugate, Complex.default,
    Complex.make, Complex.Re, Complex.Im;
  cbn [Complex.real_part Complex.imaginary_part];
  f_equal; ring.

Ltac octonion_ring :=
  unfold Octonion.operator_mul, Octonion.operator_add, Octonion.operator_sub,
    Octonion.operator_add_scalar, Octonion.operator_sub_scalar,
    Octonion.operator_mul_scalar, Octonion.conjugate, Octonion.default,
    Octonion.make, Octonion.Re, Octonion.Im;
  cbn [Octonion.real_part Octonion.imaginary_part];
  f_equal; ring.

Ltac quaternion_unfold :=
  unfold Quaternion.operator_mul, Quaternion.operator_add, Quaternion.operator_sub,
    Quaternion.operator_add_scalar, Quaternion.operator_sub_scalar,
    Quaternion.operator_mul_scalar, Quaternion.conjugate, Quaternion.default,
    Quaternion.sum_of_squares, Quaternion.make,
    Quaternion.Re, Quaternion.Im1, Quaternion.Im2, Quaternion.Im3;
  cbn [Quaternion.real_part Quaternion.i_part Quaternion.j_part Quaternion.k_part].

Ltac quaternion_ring := quaternion_unfold; f_equal; ring.

(** X1: complex and octonion multiplication are commutative and
    associative. *)
Theorem two_component_mul_comm_assoc :
  (forall z w : Complex.complex T,
      Complex.operator_mul z w = Complex.operator_mul w z)
  /\ (forall z w u : Complex.complex T,
      Complex.operator_mul z (Complex.operator_mul w u)
      = Complex.operator_mul (Complex.operator_mul z w) u)
  /\ (forall x y : Octonion.octonion T,
      Octonion.operator_mul x y = Octonion.operator_mul y x)
  /\ (forall x y v : Octonion.octonion T,
      Octonion.operator_mul x (Octonion.operator_mul y v)
      = Octonion.operator_mul (Octonion.operator_mul x y) v).
Proof.
  repeat split; intros.
  - complex_ring.
  - complex_ring.
  - octonion_ring.
  - octonion_ring.
Qed.

(** X2: quaternion multiplication is associative, and it distributes over
    subtraction on both sides. *)
Theorem quaternion_mul_assoc_distr :
  (forall p q r : Quaternion.quaternion T,
      Quaternion.operator_mul p (Quaternion.operator_mul q r)
      = Quaternion.operator_mul (Quaternion.operator_mul p q) r)
  /\ (forall p q r : Quaternion.quaternion T,
      Quaternion.operator_mul p (Quaternion.operator_sub q r)
      = Quaternion.operator_sub (Quaternion.operator_mul p q)
                                (Quaternion.operator_mul p r))
  /\ (forall p q r : Quaternion.quaternion T,
      Quaternion.operator_mul (Quaternion.operator_sub p q) r
      = Quaternion.operator_sub (Quaternion.operator_mul p r)
                                (Quaternion.operator_mul q r)).
Proof.
  repeat split; intros; quaternion_ring.
Qed.

(** X3: conjugation reverses a quaternion product: the conjugate of p*q is
    the conjugate of q times the conjugate of p. *)
Theorem quaternion_conjugate_mul :
  forall p q : Quaternion.quaternion T,
    Quaternion.conjugate (Quaternion.operator_mul p q)
    = Quaternion.operator_mul (Quaternion.conjugate q) (Quaternion.conjugate p).
Proof.
  intros; quaternion_ring.
Qed.

(** X4: a quaternion times its conjugate, in either order, is the real
    quaternion whose real part is the sum of the squares of the four
    components; so is a complex value times its conjugate. *)
Theorem mul_conjugate_is_sum_of_squares :
  (forall q : Quaternion.quaternion T,
      Quaternion.operator_mul q (Quaternion.conjugate q)
      = Quaternion.make (Quaternion.sum_of_squares q) #0 #0 #0
      /\ Quaternion.operator_mul (Quaternion.conjugate q) q
         = Quaternion.make (Quaternion.sum_of_squares q) #0 #0 #0)
  /\ (forall z : Complex.complex T,
      Complex.operator_mul z (Complex.conjugate z)
      = Complex.make (Complex.Re z * Complex.Re z + Complex.Im z * Complex.Im z) #0).
Proof.
  split; [intros q; split|intros z].
  - quaternion_ring.
  - quaternion_ring.
  - complex_ring.
Qed.

(** X5: the sum of squares under the root of [norm] is multiplicative:
    for quaternions (the four-square identity) and for complex values. *)
Theorem sum_of_squares_mul :
  (forall p q : Quaternion.quaternion T,
      Quaternion.sum_of_squares (Quaternion.operator_mul p q)
      = Quaternion.sum_of_squares p * Quaternion.sum_of_squares q)
  /\ (forall z w : Complex.complex T,
      let m := Complex.operator_mul z w in
      Complex.Re m * Complex.Re m + Complex.Im m * Complex.Im m
      = (Complex.Re z * Complex.Re z + Complex.Im z * Complex.Im z)
        * (Complex.Re w * Complex.Re w + Complex.Im w * Complex.Im w))
  /\ (forall q : Quaternion.quaternion T,
      Quaternion.norm q = s_sqrt (Quaternion.sum_of_squares q)).
Proof.
  split; [|split].
  - intros p q. quaternion_unfold. ring.
  - intros z w m. unfold m, Complex.operator_mul, Complex.make, Complex.Re, Complex.Im.
    cbn [Complex.real_part Complex.imaginary_part]. ring.
  - reflexivity.
Qed.

(** X6: the relations the header states for the units hold of
    [operator*]: i*i = j*j = k*k = i*j*k = -1; and i*j = k, j*k = i,
    k*i = j. *)
Theorem hamilton_relations :
  let i := Quaternion.make #0 #1 #0 #0 in
  let j := Quaternion.make #0 #0 #1 #0 in
  let k := Quaternion.make #0 #0 #0 #1 in
  let minus_one := Quaternion.make (- #1) #0 #0 #0 in
  Quaternion.operator_mul i i = minus_one
  /\ Quaternion.operator_mul j j = minus_one
  /\ Quaternion.operator_mul k k = minus_one
  /\ Quaternion.operator_mul (Quaternion.operator_mul i j) k = minus_one
  /\ Quaternion.operator_mul i j = k
  /\ Quaternion.operator_mul j k = i
  /\ Quaternion.operator_mul k i = j.
Proof.
  cbv zeta. repeat split; quaternion_ring.
Qed.

(** X8: subtraction undoes addition for complex and octonion values, and
    subtracting a scalar undoes adding it for all three classes. *)
Theorem add_sub_roundtrip :
  (forall z w : Complex.complex T,
      Complex.operator_sub (Complex.operator_add z w) w
      = Complex.make (Complex.Re z) (Complex.Im z)
      /\ Complex.operator_add (Complex.operator_sub z w) w
         = Complex.make (Complex.Re z) (Complex.Im z))
  /\ (forall x y : Octonion.octonion T,
      Octonion.operator_sub (Octonion.operator_add x y) y = x
      /\ Octonion.operator_add (Octonion.operator_sub x y) y = x)
  /\ (forall (z : Complex.complex T) (s : T),
      Complex.operator_sub_scalar (Complex.operator_add_scalar z s) s
      = Complex.make (Complex.Re z) (Complex.Im z))
  /\ (forall (x : Octonion.octonion T) (s : T),
      Octonion.operator_sub_scalar (Octonion.operator_add_scalar x s) s = x)
  /\ (forall (q : Quaternion.quaternion T) (s : T),
      Quaternion.operator_sub_scalar (Quaternion.operator_add_scalar q s) s = q).
Proof.
  split; [|split; [|split; [|split]]].
  - intros z w; split; complex_ring.
  - intros [a b] [c d]; split; octonion_ring.
  - intros z s; complex_ring.
  - intros [a b] s; octonion_ring.
  - intros [a b c d] s; quaternion_unfold; f_equal; ring.
Qed.

(** X9: an operator with a scalar operand computes what the operator with
    the scalar taken as the value (s,0) or (s,0,0,0) computes, for the
    scalar on the right in all three classes and on the left in
    [complex]. *)
Theorem scalar_operand_embedding :
  (forall (z : Complex.complex T) (s : T),
      Complex.operator_add_scalar z s = Complex.operator_add z (Complex.make s #0)
      /\ Complex.operator_sub_scalar z s = Complex.operator_sub z (Complex.make s #0)
      /\ Complex.operator_mul_scalar z s = Complex.operator_mul z (Complex.make s #0)
      /\ Complex.scalar_operator_add s z = Complex.operator_add (Complex.make s #0) z
      /\ Complex.scalar_operator_sub s z = Complex.operator_sub (Complex.make s #0) z
      /\ Complex.scalar_operator_mul s z = Complex.operator_mul (Complex.make s #0) z)
  /\ (forall (x : Octonion.octonion T) (s : T),
      Octonion.operator_add_scalar x s = Octonion.operator_add x (Octonion.make s #0)
      /\ Octonion.operator_sub_scalar x s = Octonion.operator_sub x (Octonion.make s #0)
      /\ Octonion.operator_mul_scalar x s = Octonion.operator_mul x (Octonion.make s #0))
  /\ (forall (q : Quaternion.quaternion T) (s : T),
      let r := Quaternion.make s #0 #0 #0 in
      Quaternion.operator_add_scalar q s = Quaternion.operator_add q r
      /\ Quaternion.operator_sub_scalar q s = Quaternion.operator_sub q r
      /\ Quaternion.operator_mul_scalar q s = Quaternion.operator_mul q r).
Proof.
  split; [|split].
  - intros z s. repeat apply conj; try complex_ring.
    + unfold Complex.scalar_operator_add; complex_ring.
    + unfold Complex.scalar_operator_sub; complex_ring.
    + unfold Complex.scalar_operator_mul; complex_ring.
  - intros x s. repeat apply conj; octonion_ring.
  - intros q s r. unfold r. repeat apply conj; quaternion_ring.
Qed.

(** X10: a default-constructed value is a right identity of addition, and
    the value (1,0), or (1,0,0,0), is an identity of multiplication on
    both sides. *)
Theorem identity_elements :
  (forall z : Complex.complex T,
      Complex.operator_add z Complex.default = Complex.make (Complex.Re z) (Complex.Im z)
      /\ Complex.operator_mul z (Complex.make #1 #0)
         = Complex.make (Complex.Re z) (Complex.Im z)
      /\ Complex.operator_mul (Complex.make #1 #0) z
         = Complex.make (Complex.Re z) (Complex.Im z))
  /\ (forall x : Octonion.octonion T,
      Octonion.operator_add x Octonion.default = x
      /\ Octonion.operator_mul x (Octonion.make #1 #0) = x
      /\ Octonion.operator_mul (Octonion.make #1 #0) x = x)
  /\ (forall q : Quaternion.quaternion T,
      Quaternion.operator_add q Quaternion.default = q
      /\ Quaternion.operator_mul q (Quaternion.make #1 #0 #0 #0) = q
      /\ Quaternion.operator_mul (Quaternion.make #1 #0 #0 #0) q = q).
Proof.
  split; [|split].
  - intros z. repeat apply conj; complex_ring.
  - intros [a b]. repeat apply conj; octonion_ring.
  - intros [a b c d]. repeat apply conj; quaternion_ring.
Qed.

End RingScalar.

(** *** On integers *)

(** (1 + 2i)(3 + 4i) = (3 + 4i)(1 + 2i) = -5 + 10i. *)
Lemma two_component_mul_comm_assoc_witness :
  Complex.operator_mul (Complex.make 1%Z 2%Z) (Complex.make 3%Z 4%Z)
  = Complex.operator_mul (Complex.make 3%Z 4%Z) (Complex.make 1%Z 2%Z)
  /\ Complex.operator_mul (Complex.make 3%Z 4%Z) (Complex.make 1%Z 2%Z)
     = Complex.make (-5)%Z 10%Z.
Proof.
  split.
  - exact (proj1 (@two_component_mul_comm_assoc Z Scalar_Z Zth) _ _).
  - reflexivity.
Defined.

Lemma quaternion_mul_assoc_distr_witness :
  let p := Quaternion.make 1%Z 2%Z 3%Z 4%Z in
  let q := Quaternion.make 0%Z 1%Z 0%Z (-1)%Z in
  let r := Quaternion.make 2%Z 0%Z 5%Z 1%Z in
  Quaternion.operator_mul p (Quaternion.operator_mul q r)
  = Quaternion.operator_mul (Quaternion.operator_mul p q) r.
Proof.
  exact (proj1 (@quaternion_mul_assoc_distr Z Scalar_Z Zth) _ _ _).
Defined.

Lemma quaternion_conjugate_mul_witness :
  let p := Quaternion.make 1%Z 2%Z 3%Z 4%Z in
  let q := Quaternion.make 0%Z 1%Z 0%Z (-1)%Z in
  Quaternion.conjugate (Quaternion.operator_mul p q)
  = Quaternion.operator_mul (Quaternion.conjugate q) (Quaternion.conjugate p).
Proof.
  exact (@quaternion_conjugate_mul Z Scalar_Z Zth _ _).
Defined.

(** (1,2,3,4) times its conjugate is (30,0,0,0). *)
Lemma mul_conjugate_is_sum_of_squares_witness :
  let q := Quaternion.make 1%Z 2%Z 3%Z 4%Z in
  Quaternion.operator_mul q (Quaternion.conjugate q) = Quaternion.make 30%Z 0%Z 0%Z 0%Z.
Proof.
  exact (proj1 (proj1 (@mul_conjugate_is_sum_of_squares Z Scalar_Z Zth) _)).
Defined.

Lemma sum_of_squares_mul_witness :
  let p := Quaternion.make 1%Z 2%Z 3%Z 4%Z in
  let q := Quaternion.make 0%Z 1%Z 0%Z (-1)%Z in
  Quaternion.sum_of_squares (Quaternion.operator_mul p q) = (30 * 2)%Z.
Proof.
  exact (proj1 (@sum_of_squares_mul Z Scalar_Z Zth) _ _).
Defined.

Lemma hamilton_relations_witness :
  Quaternion.operator_mul (Quaternion.make 0%Z 1%Z 0%Z 0%Z) (Quaternion.make 0%Z 1%Z 0%Z 0%Z)
  = Quaternion.make (-1)%Z 0%Z 0%Z 0%Z.
Proof.
  exact (proj1 (@hamilton_relations Z Scalar_Z Zth)).
Defined.

Lemma add_sub_roundtrip_witness :
  Complex.operator_sub
    (Complex.operator_add (Complex.make 1%Z 2%Z) (Complex.make 3%Z (-1)%Z))
    (Complex.make 3%Z (-1)%Z)
  = Complex.make 1%Z 2%Z.
Proof.
  exact (proj1 (proj1 (@add_sub_roundtrip Z Scalar_Z Zth) _ _)).
Defined.

Lemma scalar_operand_embedding_witness :
  Complex.operator_mul_scalar (Complex.make 1%Z 2%Z) 3%Z
  = Complex.operator_mul (Complex.make 1%Z 2%Z) (Complex.make 3%Z 0%Z).
Proof.
  exact (proj1 (proj2 (proj2 (proj1 (@scalar_operand_embedding Z Scalar_Z Zth) _ _)))).
Defined.

Lemma identity_elements_witness :
  let q := Quaternion.make 1%Z 2%Z 3%Z 4%Z in
  Quaternion.operator_mul (Quaternion.make 1%Z 0%Z 0%Z 0%Z) q = q.
Proof.
  exact (proj2 (proj2 (proj2 (proj2 (@identity_elements Z Scalar_Z Zth)) _))).
Defined.

(** ** Equality *)

Section DecidingEquality.
Context {T : Type} {ST : Scalar T}.
Local Open Scope scalar_scope.
Hypothesis eqb_eq : forall x y : T, (x == y) = true <-> x = y.

(** X11: where [==] on scalars decides equality, [operator==] holds
    exactly when the components are equal; on [complex] it does not look
    at the display flag, so a value compares equal to itself with the
    flag changed. *)
Theorem operator_eq_components :
  (forall z w : Complex.complex T,
      Complex.operator_eq z w = true
      <-> Complex.Re z = Complex.Re w /\ Complex.Im z = Complex.Im w)
  /\ (forall (z : Complex.complex T) (flag : bool),
      Complex.operator_eq (Complex.UseJInOutput z flag) z = true)
  /\ (forall x y : Octonion.octonion T,
      Octonion.operator_eq x y = true <-> x = y)
  /\ (forall p q : Quaternion.quaternion T,
      Quaternion.operator_eq p q = true <-> p = q).
Proof.
  split; [|split; [|split]].
  - intros z w. unfold Complex.operator_eq, Complex.Re, Complex.Im.
    rewrite andb_true_iff, !eqb_eq. reflexivity.
  - intros z flag. unfold Complex.operator_eq, Complex.UseJInOutput; cbn.
    apply andb_true_intro; split; apply eqb_eq; reflexivity.
  - intros [a b] [c d]. unfold Octonion.operator_eq; cbn.
    rewrite andb_true_iff, !eqb_eq. split.
    + intros [-> ->]; reflexivity.
    + intros H; injection H; auto.
  - intros [a b c d] [a' b' c' d']. unfold Quaternion.operator_eq; cbn.
    rewrite !andb_true_iff, !eqb_eq. split.
    + intros [[[-> ->] ->] ->]; reflexivity.
    + intros H; injection H; auto.
Qed.

End DecidingEquality.

Lemma operator_eq_components_witness :
  Complex.operator_eq (Complex.UseJInOutput (Complex.make 1%Z 2%Z) true)
                      (Complex.make 1%Z 2%Z) = true.
Proof.
  exact (proj1 (proj2 (@operator_eq_components Z Scalar_Z Z.eqb_eq)) _ _).
Defined.

(** ** On [double] *)

Section DoubleArithmetic.
Local Open Scope float_scope.

Lemma SFopp_involutive (x : spec_float) : SFopp (SFopp x) = x.
Proof. destruct x as [s|s| |s m e]; cbn; rewrite ?negb_involutive; reflexivity. Qed.

Lemma double_neg_involutive (x : double) : s_neg (s_neg x) = x.
Proof.
  apply Prim2SF_inj. cbn. rewrite !opp_spec. apply SFopp_involutive.
Qed.

Lemma SFmul_comm (prec emax : Z) (x y : spec_float) :
  SFmul prec emax x y = SFmul prec emax y x.
Proof.
  destruct x as [sx|sx| |sx mx ex], y as [sy|sy| |sy my ey]; cbn;
    rewrite ?(xorb_comm sx sy); try reflexivity.
  rewrite Pos.mul_comm, Z.add_comm. reflexivity.
Qed.

Lemma double_mul_comm (x y : double) : s_mul x y = s_mul y x.
Proof.
  apply Prim2SF_inj. cbn. rewrite !mul_spec. apply SFmul_comm.
Qed.

(** The product of two negated values is the product of the values. *)
Lemma double_mul_neg_neg (x y : double) : s_mul (s_neg x) (s_neg y) = s_mul x y.
Proof.
  apply Prim2SF_inj. cbn. rewrite !mul_spec, !opp_spec. unfold SF64mul.
  destruct (Prim2SF x) as [sx|sx| |sx mx ex], (Prim2SF y) as [sy|sy| |sy my ey];
    cbn; try reflexivity; destruct sx, sy; reflexivity.
Qed.

(** A value that compares equal to zero is one of the two zeros. *)
Lemma double_eqb_zero (x : double) :
  s_eqb x (s_of_int 0) = true -> exists s, Prim2SF x = S754_zero s.
Proof.
  cbn. rewrite eqb_spec. change (Prim2SF zero) with (S754_zero false).
  destruct (Prim2SF x) as [s|s| |s m e]; unfold SFeqb; cbn.
  - intros _. exists s. reflexivity.
  - destruct s; discriminate.
  - discriminate.
  - destruct s; discriminate.
Qed.

(** NaN absorbs the arithmetic operators. *)
Lemma double_nan_absorbs (x : double) :
  s_mul x nan = nan /\ s_mul nan x = nan
  /\ s_add x nan = nan /\ s_add nan x = nan
  /\ s_sub x nan = nan /\ s_sub nan x = nan
  /\ s_div x nan = nan /\ s_div nan x = nan.
Proof.
  repeat split; apply Prim2SF_inj; cbn;
    rewrite ?mul_spec, ?add_spec, ?sub_spec, ?div_spec;
    change (Prim2SF nan) with S754_nan;
    destruct (Prim2SF x) as [s|s| |s m e]; reflexivity.
Qed.

(** A value whose specification is NaN or an infinity is not finite. *)
Lemma double_not_finite (x : double) :
  (Prim2SF x = S754_nan \/ exists s, Prim2SF x = S754_infinity s) ->
  is_finite x = false.
Proof.
  unfold is_finite, is_nan, is_infinity.
  rewrite !eqb_spec, abs_spec.
  change (Prim2SF infinity) with (S754_infinity false).
  intros [-> | [s ->]]; [|destruct s]; reflexivity.
Qed.

(** Dividing by a zero gives NaN or an infinity. *)
Lemma double_div_zero (x d : double) :
  s_eqb d (s_of_int 0) = true -> is_finite (s_div x d) = false.
Proof.
  intros Hd. destruct (double_eqb_zero Hd) as [sd Ed].
  apply double_not_finite. cbn. rewrite div_spec, Ed. unfold SF64div.
  destruct (Prim2SF x) as [s|s| |s m e]; cbn.
  - left; reflexivity.
  - right; eexists; reflexivity.
  - left; reflexivity.
  - right; eexists; reflexivity.
Qed.

(** A value that compares equal to zero is [+0.0] or [-0.0]. *)
Lemma double_eqb_zero_cases (x : double) :
  s_eqb x (s_of_int 0) = true -> x = 0 \/ x = -0.
Proof.
  intros H. destruct (double_eqb_zero H) as [[|] E].
  - right. apply Prim2SF_inj. rewrite E. reflexivity.
  - left. apply Prim2SF_inj. rewrite E. reflexivity.
Qed.

(** A finite value is a zero or a finite binary number. *)
Lemma double_finite_cases (x : double) :
  is_finite x = true ->
  (exists s, Prim2SF x = S754_zero s) \/ (exists s m e, Prim2SF x = S754_finite s m e).
Proof.
  unfold is_finite, is_nan, is_infinity.
  rewrite !eqb_spec, abs_spec.
  change (Prim2SF infinity) with (S754_infinity false).
  destruct (Prim2SF x) as [s|s| |s m e]; cbn; intros H.
  - left; eexists; reflexivity.
  - destruct s; discriminate H.
  - discriminate H.
  - right; do 3 eexists; reflexivity.
Qed.

(** The two quotients of complex division, for a divisor with zero
    components. *)
Lemma double_div_by_zero_components (a b c d : double) :
  (c = 0 \/ c = -0) -> (d = 0 \/ d = -0) ->
  s_div (s_add (s_mul a c) (s_mul b d)) (s_add (s_mul c c) (s_mul d d)) = nan
  /\ s_div (s_sub (s_mul b c) (s_mul a d)) (s_add (s_mul c c) (s_mul d d)) = nan.
Proof.
  intros Hc Hd.
  assert (Hdiv : s_add (s_mul c c) (s_mul d d) = 0)
    by (destruct Hc as [-> | ->], Hd as [-> | ->]; vm_compute; reflexivity).
  rewrite Hdiv.
  split; apply Prim2SF_inj; cbn;
    rewrite div_spec, ?add_spec, ?sub_spec, !mul_spec;
    destruct Hc as [-> | ->], Hd as [-> | ->];
    change (Prim2SF 0) with (S754_zero false);
    change (Prim2SF (-0)) with (S754_zero true);
    change (Prim2SF nan) with S754_nan;
    destruct (Prim2SF a) as [[|]|[|]| |[|] ma ea], (Prim2SF b) as [[|]|[|]| |[|] mb eb];
    reflexivity.
Qed.

End DoubleArithmetic.

(** *** Conjugation and the norm *)

(** X12: where negating twice gives back the scalar, as on [double] and on
    integers, conjugating twice gives back the components of a complex
    value (the display flag is reset), and the octonion or quaternion
    itself. *)
Theorem conjugate_involutive :
  forall (T : Type) (ST : Scalar T),
    (forall x : T, (- - x = x)%S) ->
    (forall z : Complex.complex T,
        Complex.conjugate (Complex.conjugate z)
        = Complex.make (Complex.Re z) (Complex.Im z))
    /\ (forall x : Octonion.octonion T,
        Octonion.conjugate (Octonion.conjugate x) = x)
    /\ (forall q : Quaternion.quaternion T,
        Quaternion.conjugate (Quaternion.conjugate q) = q).
Proof.
  intros T ST Hneg. split; [|split].
  - intros z. unfold Complex.conjugate, Complex.make, Complex.Re, Complex.Im; cbn.
    rewrite Hneg. reflexivity.
  - intros [a b]. unfold Octonion.conjugate, Octonion.make; cbn.
    rewrite Hneg. reflexivity.
  - intros [a b c d]. unfold Quaternion.conjugate, Quaternion.make; cbn.
    rewrite !Hneg. reflexivity.
Qed.

(** On [double]: the conjugate of the conjugate of (1, -0.0, NaN, 2) is
    that quaternion, negative zero and NaN included. *)
Lemma conjugate_involutive_witness :
  let q := Quaternion.make 1%float (-0)%float nan 2%float in
  Quaternion.conjugate (Quaternion.conjugate q) = q.
Proof.
  exact (proj2 (proj2 (@conjugate_involutive double Scalar_double double_neg_involutive)) _).
Defined.

(** X13: on [double], the norm of a complex value or a quaternion is
    exactly the norm of its conjugate, and it is never negative: it
    compares [>= 0] unless it is NaN. *)
Theorem double_norm_conjugate :
  (forall z : Complex.complex double,
      Complex.norm (Complex.conjugate z) = Complex.norm z
      /\ (s_geb (Complex.norm z) (s_of_int 0) = true
          \/ is_nan (Complex.norm z) = true))
  /\ (forall q : Quaternion.quaternion double,
      Quaternion.norm (Quaternion.conjugate q) = Quaternion.norm q
      /\ (s_geb (Quaternion.norm q) (s_of_int 0) = true
          \/ is_nan (Quaternion.norm q) = true)).
Proof.
  split.
  - intros z. split.
    + unfold Complex.norm, Complex.conjugate, Complex.make; cbn [Complex.real_part Complex.imaginary_part].
      rewrite double_mul_neg_neg. reflexivity.
    + apply double_sqrt_nonneg_or_nan.
  - intros q. split.
    + unfold Quaternion.norm, Quaternion.conjugate, Quaternion.make;
        cbn [Quaternion.real_part Quaternion.i_part Quaternion.j_part Quaternion.k_part].
      rewrite !double_mul_neg_neg. reflexivity.
    + apply double_sqrt_nonneg_or_nan.
Qed.

(** *** Multiplication *)


(** *** Division by zero *)

(** X15: on [double], dividing any complex value, or any scalar, by a
    complex value that compares equal to (0,0) gives (NaN, NaN), never an
    infinity. *)
Theorem complex_div_by_zero :
  forall z w : Complex.complex double,
    Complex.operator_eq w (Complex.make 0%float 0%float) = true ->
    Complex.operator_div z w = Complex.make nan nan
    /\ (forall s : double, Complex.scalar_operator_div s w = Complex.make nan nan).
Proof.
  intros z w Hw.
  unfold Complex.operator_eq in Hw. cbn in Hw.
  apply andb_true_iff in Hw. destruct Hw as [Hc Hd].
  apply (@double_eqb_zero_cases (Complex.real_part w)) in Hc.
  apply (@double_eqb_zero_cases (Complex.imaginary_part w)) in Hd.
  split; [|intros s]; unfold Complex.scalar_operator_div, Complex.operator_div, Complex.make;
    cbn [Complex.real_part Complex.imaginary_part]; f_equal;
    apply double_div_by_zero_components; assumption.
Qed.

Lemma complex_div_by_zero_witness :
  Complex.operator_div (Complex.make 1%float 2%float) (Complex.make 0%float (-0)%float)
  = Complex.make nan nan.
Proof.
  exact (proj1 (@complex_div_by_zero (Complex.make 1%float 2%float)
                  (Complex.make 0%float (-0)%float) eq_refl)).
Defined.

(** X16: on [double], dividing a complex value, an octonion or a
    quaternion by a scalar that compares equal to zero leaves no finite
    component: each one is an infinity or NaN. *)
Theorem div_scalar_by_zero :
  forall s : double,
    s_eqb s (s_of_int 0) = true ->
    (forall z : Complex.complex double,
        is_finite (Complex.Re (Complex.operator_div_scalar z s)) = false
        /\ is_finite (Complex.Im (Complex.operator_div_scalar z s)) = false)
    /\ (forall x : Octonion.octonion double,
        is_finite (Octonion.Re (Octonion.operator_div_scalar x s)) = false
        /\ is_finite (Octonion.Im (Octonion.operator_div_scalar x s)) = false)
    /\ (forall q : Quaternion.quaternion double,
        is_finite (Quaternion.Re (Quaternion.operator_div_scalar q s)) = false
        /\ is_finite (Quaternion.Im1 (Quaternion.operator_div_scalar q s)) = false
        /\ is_finite (Quaternion.Im2 (Quaternion.operator_div_scalar q s)) = false
        /\ is_finite (Quaternion.Im3 (Quaternion.operator_div_scalar q s)) = false).
Proof.
  intros s Hs. repeat split; cbn; apply double_div_zero; exact Hs.
Qed.

(** (1, -2, 0, NaN) divided by -0.0 is (-infinity, infinity, NaN, NaN). *)
Lemma div_scalar_by_zero_witness :
  Quaternion.operator_div_scalar (Quaternion.make 1%float (-2)%float 0%float nan) (-0)%float
  = Quaternion.make neg_infinity infinity nan nan
  /\ is_finite (Quaternion.Re
       (Quaternion.operator_div_scalar (Quaternion.make 1%float (-2)%float 0%float nan)
          (-0)%float)) = false.
Proof.
  split.
  - vm_compute. reflexivity.
  - exact (proj1 (proj2 (proj2 (@div_scalar_by_zero (-0)%float eq_refl))
                    (Quaternion.make 1%float (-2)%float 0%float nan))).
Defined.

(** X17: on [double], dividing any quaternion by a quaternion that
    compares equal to (0,0,0,0) gives NaN in all four components: the
    reciprocal of the divisor is already all NaN. *)
Theorem quaternion_div_by_zero :
  forall q r : Quaternion.quaternion double,
    Quaternion.operator_eq r (Quaternion.make 0%float 0%float 0%float 0%float) = true ->
    Quaternion.reciprocal r = Quaternion.make nan nan nan nan
    /\ Quaternion.operator_div q r = Quaternion.make nan nan nan nan.
Proof.
  intros q [a b c d] Hr.
  unfold Quaternion.operator_eq in Hr. cbn in Hr.
  rewrite !andb_true_iff in Hr. destruct Hr as [[[Ha Hb] Hc] Hd].
  apply (@double_eqb_zero_cases a) in Ha. apply (@double_eqb_zero_cases b) in Hb.
  apply (@double_eqb_zero_cases c) in Hc. apply (@double_eqb_zero_cases d) in Hd.
  assert (Hrec : Quaternion.reciprocal (Quaternion.mk a b c d)
                 = Quaternion.make nan nan nan nan)
    by (destruct Ha as [-> | ->], Hb as [-> | ->], Hc as [-> | ->], Hd as [-> | ->];
        vm_compute; reflexivity).
  split; [exact Hrec|].
  unfold Quaternion.operator_div. rewrite Hrec.
  unfold Quaternion.operator_mul, Quaternion.make;
    cbn [Quaternion.real_part Quaternion.i_part Quaternion.j_part Quaternion.k_part].
  rewrite (proj1 (double_nan_absorbs (Quaternion.real_part q))),
    (proj1 (double_nan_absorbs (Quaternion.i_part q))),
    (proj1 (double_nan_absorbs (Quaternion.j_part q))),
    (proj1 (double_nan_absorbs (Quaternion.k_part q))).
  vm_compute. reflexivity.
Qed.

Lemma quaternion_div_by_zero_witness :
  Quaternion.operator_div (Quaternion.make 1%float 2%float 3%float 4%float)
                          (Quaternion.make 0%float (-0)%float 0%float 0%float)
  = Quaternion.make nan nan nan nan.
Proof.
  exact (proj2 (@quaternion_div_by_zero (Quaternion.make 1%float 2%float 3%float 4%float)
                  (Quaternion.make 0%float (-0)%float 0%float 0%float) eq_refl)).
Defined.

(** X18: on [double], dividing an octonion with finite components by an
    octonion that compares equal to (0,0) gives a result that compares
    equal to (0,0), not an infinity or NaN, as long as the sum of the
    squares of the dividend's components is neither zero nor NaN: the
    divisor of [operator/] is that sum. *)
Theorem octonion_div_by_zero :
  forall x y : Octonion.octonion double,
    is_finite (Octonion.Re x) = true ->
    is_finite (Octonion.Im x) = true ->
    let n := s_add (s_mul (Octonion.Re x) (Octonion.Re x))
                   (s_mul (Octonion.Im x) (Octonion.Im x)) in
    is_nan n = false ->
    s_eqb n (s_of_int 0) = false ->
    Octonion.operator_eq y (Octonion.make 0%float 0%float) = true ->
    Octonion.operator_eq (Octonion.operator_div x y) (Octonion.make 0%float 0%float)
    = true.
Proof.
  intros [a b] [c d] Ha Hb n Hnan Hnz Hy.
  unfold Octonion.Re, Octonion.Im in *. cbn [Octonion.real_part Octonion.imaginary_part] in *.
  unfold Octonion.operator_eq in Hy. cbn in Hy.
  apply andb_true_iff in Hy. destruct Hy as [Hc Hd].
  apply (@double_eqb_zero c) in Hc. apply (@double_eqb_zero d) in Hd.
  destruct Hc as [sc Ec], Hd as [sd Ed].
  unfold Octonion.operator_eq, Octonion.operator_div, Octonion.make.
  cbn [Octonion.real_part Octonion.imaginary_part].
  fold n. clearbody n.
  assert (Hn : exists s, (exists m e, Prim2SF n = S754_finite s m e)
                         \/ Prim2SF n = S754_infinity s).
  { unfold is_nan in Hnan. cbn in Hnz. rewrite eqb_spec in Hnan, Hnz.
    change (Prim2SF zero) with (S754_zero false) in Hnz.
    revert Hnan Hnz.
    destruct (Prim2SF n) as [s|s| |s m e]; intros Hnan Hnz.
    - discriminate Hnz.
    - exists s; right; reflexivity.
    - discriminate Hnan.
    - exists s; left; do 2 eexists; reflexivity. }
  destruct Hn as [sn Hn].
  assert (Hzero : forall u : double,
             (exists s, Prim2SF u = S754_zero s) ->
             s_eqb (s_div u n) (s_of_int 0) = true).
  { intros u [su Eu]. cbn. rewrite eqb_spec, div_spec, Eu.
    change (Prim2SF zero) with (S754_zero false).
    destruct Hn as [(m & e & ->) | ->]; reflexivity. }
  apply andb_true_intro. split; apply Hzero.
  - cbn. rewrite add_spec, !mul_spec, Ec, Ed.
    destruct (@double_finite_cases a Ha) as [[s ->] | (s & m & e & ->)],
             (@double_finite_cases b Hb) as [[s' ->] | (s' & m' & e' & ->)];
      cbn; destruct (xorb _ sc), (xorb _ sd); eexists; reflexivity.
  - cbn. rewrite sub_spec, !mul_spec, Ec, Ed.
    destruct (@double_finite_cases a Ha) as [[s ->] | (s & m & e & ->)],
             (@double_finite_cases b Hb) as [[s' ->] | (s' & m' & e' & ->)];
      cbn; destruct (xorb sd _), (xorb sc _); eexists; reflexivity.
Qed.

(** (2,0) divided by (0,0) is (0,0). *)
Lemma octonion_div_by_zero_witness :
  Octonion.operator_eq
    (Octonion.operator_div (Octonion.make 2%float 0%float) (Octonion.make 0%float 0%float))
    (Octonion.make 0%float 0%float) = true.
Proof.
  exact (@octonion_div_by_zero (Octonion.make 2%float 0%float)
           (Octonion.make 0%float 0%float) eq_refl eq_refl eq_refl eq_refl eq_refl).
Defined.

(** *** Equality on [double] *)

Lemma SFeqb_sym (x y : spec_float) : SFeqb x y = SFeqb y x.
Proof.
  unfold SFeqb.
  destruct x as [sx|sx| |sx mx ex], y as [sy|sy| |sy my ey]; cbn;
    try reflexivity; try (destruct sx, sy; reflexivity).
  change (Pos.compare_cont Eq mx my) with (Pos.compare mx my).
  change (Pos.compare_cont Eq my mx) with (Pos.compare my mx).
  rewrite (Z.compare_antisym ex ey), (Pos.compare_antisym mx my).
  destruct sx, sy; try reflexivity;
    destruct (Z.compare ex ey); cbn; try reflexivity;
    destruct (Pos.compare mx my); reflexivity.
Qed.

Lemma double_eqb_sym (x y : double) : s_eqb x y = s_eqb y x.
Proof. cbn. rewrite !eqb_spec. apply SFeqb_sym. Qed.

(** X19: on [double], [operator==] of the three classes is symmetric; it
    is not reflexive: a value compares equal to itself exactly when none
    of its components is NaN. *)
Theorem double_operator_eq_sym :
  (forall z w : Complex.complex double,
      Complex.operator_eq z w = Complex.operator_eq w z)
  /\ (forall x y : Octonion.octonion double,
      Octonion.operator_eq x y = Octonion.operator_eq y x)
  /\ (forall p q : Quaternion.quaternion double,
      Quaternion.operator_eq p q = Quaternion.operator_eq q p)
  /\ (forall z : Complex.complex double,
      Complex.operator_eq z z
      = negb (is_nan (Complex.Re z) || is_nan (Complex.Im z)))
  /\ (forall q : Quaternion.quaternion double,
      Quaternion.operator_eq q q
      = negb (is_nan (Quaternion.Re q) || is_nan (Quaternion.Im1 q)
              || is_nan (Quaternion.Im2 q) || is_nan (Quaternion.Im3 q))).
Proof.
  split; [|split; [|split; [|split]]].
  - intros z w. unfold Complex.operator_eq.
    rewrite (double_eqb_sym (Complex.real_part z)),
      (double_eqb_sym (Complex.imaginary_part z)). reflexivity.
  - intros x y. unfold Octonion.operator_eq.
    rewrite (double_eqb_sym (Octonion.real_part x)),
      (double_eqb_sym (Octonion.imaginary_part x)). reflexivity.
  - intros p q. unfold Quaternion.operator_eq.
    rewrite (double_eqb_sym (Quaternion.real_part p)),
      (double_eqb_sym (Quaternion.i_part p)),
      (double_eqb_sym (Quaternion.j_part p)),
      (double_eqb_sym (Quaternion.k_part p)). reflexivity.
  - intros z. unfold Complex.operator_eq, Complex.Re, Complex.Im, is_nan. cbn.
    rewrite negb_orb, !negb_involutive. reflexivity.
  - intros q. unfold Quaternion.operator_eq, Quaternion.Re, Quaternion.Im1,
      Quaternion.Im2, Quaternion.Im3, is_nan. cbn.
    rewrite !negb_orb, !negb_involutive. reflexivity.
Qed.

(** *** Writing to a stream *)

Lemma string_append_assoc (a b c : string) :
  ((a ++ b) ++ c = a ++ (b ++ c))%string.
Proof.
  induction a as [|ch a IH]; cbn; [reflexivity|]. rewrite IH. reflexivity.
Qed.

(** X20: [operator<<] keeps what the stream holds and writes after it; two
    insertions in a row write the text of the first value and then the
    text of the second. *)
Theorem rendering_appends :
  forall (T : Type) (ST : Scalar T) (PT : Printable T)
         (out : string) (z w : Complex.complex T),
    Complex.operator_shl out z
    = option_map (String.append out) (Complex.operator_shl EmptyString z)
    /\ (forall tz tw : string,
          Complex.operator_shl EmptyString z = Some tz ->
          Complex.operator_shl EmptyString w = Some tw ->
          match Complex.operator_shl out z with
          | Some out' => Complex.operator_shl out' w
          | None => None
          end = Some (out ++ tz ++ tw)%string).
Proof.
  intros T ST PT out z w.
  assert (Hpre : forall (o : string) (v : Complex.complex T),
             Complex.operator_shl o v
             = option_map (String.append o) (Complex.operator_shl EmptyString v)).
  { intros o v. unfold Complex.operator_shl.
    destruct (show (Complex.Re v)), (show (Complex.Im v)); reflexivity. }
  split; [apply Hpre|].
  intros tz tw Hz Hw.
  rewrite (Hpre out z), Hz. cbn.
  rewrite (Hpre (out ++ tz)%string w), Hw. cbn.
  rewrite string_append_assoc. reflexivity.
Qed.

(** On integers: writing 1 - 2i and then 3 + 4i (shown with j) after
    [z=] gives [z=1-2i3+4j]. *)
Lemma rendering_appends_witness :
  match Complex.operator_shl "z=" (Complex.make 1%Z (-2)%Z) with
  | Some out' => Complex.operator_shl out' (Complex.UseJInOutput (Complex.make 3%Z 4%Z) true)
  | None => None
  end = Some "z=1-2i3+4j"%string.
Proof.
  exact (proj2 (@rendering_appends Z Scalar_Z Printable_Z "z="%string
                  (Complex.make 1%Z (-2)%Z)
                  (Complex.UseJInOutput (Complex.make 3%Z 4%Z) true))
           "1-2i"%string "3+4j"%string eq_refl eq_refl).
Defined.

(** ** More over a commutative ring *)

Section RingScalarMore.
Context {T : Type} {ST : Scalar T}.
Local Open Scope scalar_scope.
Hypothesis Tring : ring_theory (#0) (#1) s_add s_mul s_sub s_neg (@eq T).
Add Ring TRingMore : Tring.

Ltac by_components :=
  unfold Complex.operator_mul, Complex.operator_add, Complex.operator_sub,
    Complex.conjugate, Complex.make,
    Octonion.operator_mul, Octonion.operator_add, Octonion.operator_sub,
    Octonion.conjugate, Octonion.make,
    Quaternion.operator_mul, Quaternion.operator_add, Quaternion.operator_sub,
    Quaternion.conjugate, Quaternion.make;
  cbn [Complex.real_part Complex.imaginary_part
       Octonion.real_part Octonion.imaginary_part
       Quaternion.real_part Quaternion.i_part Quaternion.j_part Quaternion.k_part];
  f_equal; ring.

(** X21: conjugation of complex values and of octonions preserves sums,
    differences and products; conjugation of quaternions preserves sums
    and differences. *)
Theorem conjugate_preserves :
  (forall z w : Complex.complex T,
      Complex.conjugate (Complex.operator_add z w)
      = Complex.operator_add (Complex.conjugate z) (Complex.conjugate w)
      /\ Complex.conjugate (Complex.operator_sub z w)
         = Complex.operator_sub (Complex.conjugate z) (Complex.conjugate w)
      /\ Complex.conjugate (Complex.operator_mul z w)
         = Complex.operator_mul (Complex.conjugate z) (Complex.conjugate w))
  /\ (forall x y : Octonion.octonion T,
      Octonion.conjugate (Octonion.operator_add x y)
      = Octonion.operator_add (Octonion.conjugate x) (Octonion.conjugate y)
      /\ Octonion.conjugate (Octonion.operator_sub x y)
         = Octonion.operator_sub (Octonion.conjugate x) (Octonion.conjugate y)
      /\ Octonion.conjugate (Octonion.operator_mul x y)
         = Octonion.operator_mul (Octonion.conjugate x) (Octonion.conjugate y))
  /\ (forall p q : Quaternion.quaternion T,
      Quaternion.conjugate (Quaternion.operator_add p q)
      = Quaternion.operator_add (Quaternion.conjugate p) (Quaternion.conjugate q)
      /\ Quaternion.conjugate (Quaternion.operator_sub p q)
         = Quaternion.operator_sub (Quaternion.conjugate p) (Quaternion.conjugate q)).
Proof.
  split; [|split]; intros; repeat apply conj; by_components.
Qed.

(** X22: complex and octonion multiplication distribute over addition and
    subtraction. *)
Theorem two_component_mul_distr :
  (forall z w u : Complex.complex T,
      Complex.operator_mul z (Complex.operator_add w u)
      = Complex.operator_add (Complex.operator_mul z w) (Complex.operator_mul z u)
      /\ Complex.operator_mul z (Complex.operator_sub w u)
         = Complex.operator_sub (Complex.operator_mul z w) (Complex.operator_mul z u))
  /\ (forall x y v : Octonion.octonion T,
      Octonion.operator_mul x (Octonion.operator_add y v)
      = Octonion.operator_add (Octonion.operator_mul x y) (Octonion.operator_mul x v)
      /\ Octonion.operator_mul x (Octonion.operator_sub y v)
         = Octonion.operator_sub (Octonion.operator_mul x y) (Octonion.operator_mul x v)).
Proof.
  split; intros; split; by_components.
Qed.

(** X23: the quaternions (a,b,0,0) multiply, add and subtract as the
    complex values (a,b) do. *)
Theorem complex_in_quaternion :
  forall a b c d : T,
    let z := Complex.make a b in
    let w := Complex.make c d in
    let lift (v : Complex.complex T) :=
      Quaternion.make (Complex.Re v) (Complex.Im v) #0 #0 in
    Quaternion.operator_mul (lift z) (lift w) = lift (Complex.operator_mul z w)
    /\ Quaternion.operator_add (lift z) (lift w) = lift (Complex.operator_add z w)
    /\ Quaternion.operator_sub (lift z) (lift w) = lift (Complex.operator_sub z w)
    /\ Quaternion.conjugate (lift z) = lift (Complex.conjugate z).
Proof.
  intros a b c d z w lift. unfold lift, z, w, Complex.Re, Complex.Im.
  repeat apply conj; by_components.
Qed.

End RingScalarMore.

Lemma conjugate_preserves_witness :
  let z := Complex.make 1%Z 2%Z in
  let w := Complex.make 3%Z 4%Z in
  Complex.conjugate (Complex.operator_mul z w)
  = Complex.operator_mul (Complex.conjugate z) (Complex.conjugate w).
Proof.
  exact (proj2 (proj2 (proj1 (@conjugate_preserves Z Scalar_Z Zth) _ _))).
Defined.

Lemma two_component_mul_distr_witness :
  let z := Complex.make 1%Z 2%Z in
  let w := Complex.make 3%Z 4%Z in
  let u := Complex.make (-1)%Z 5%Z in
  Complex.operator_mul z (Complex.operator_add w u)
  = Complex.operator_add (Complex.operator_mul z w) (Complex.operator_mul z u).
Proof.
  exact (proj1 (proj1 (@two_component_mul_distr Z Scalar_Z Zth) _ _ _)).
Defined.

Lemma complex_in_quaternion_witness :
  Quaternion.operator_mul (Quaternion.make 1%Z 2%Z 0%Z 0%Z) (Quaternion.make 3%Z 4%Z 0%Z 0%Z)
  = Quaternion.make (-5)%Z 10%Z 0%Z 0%Z.
Proof.
  exact (proj1 (@complex_in_quaternion Z Scalar_Z Zth 1%Z 2%Z 3%Z 4%Z)).
Defined.

(** ** Octonion division and quaternion reciprocal on [double] *)

Section DoubleDivision.
Local Open Scope float_scope.

Lemma binary_round_aux_opp (prec emax : Z) (s : bool) (m e : Z) (l : location) :
  SFopp (binary_round_aux prec emax s m e l) = binary_round_aux prec emax (negb s) m e l.
Proof.
  unfold binary_round_aux.
  destruct (shr_fexp prec emax m e l) as [mrs' e'].
  destruct (shr_fexp prec emax _ e' loc_Exact) as [mrs'' e''].
  destruct (shr_m mrs''); try reflexivity.
  destruct (Z.leb e'' (Z.sub emax prec)); reflexivity.
Qed.

(** Negation goes through a quotient and through a product. *)
Lemma double_div_neg (x y : double) : s_div (s_neg x) y = s_neg (s_div x y).
Proof.
  apply Prim2SF_inj. cbn. rewrite opp_spec, !div_spec, opp_spec. unfold SF64div.
  destruct (Prim2SF x) as [sx|sx| |sx mx ex], (Prim2SF y) as [sy|sy| |sy my ey];
    cbn; try reflexivity; try (destruct sx, sy; reflexivity).
  destruct (SFdiv_core_binary prec emax (Zpos mx) ex (Zpos my) ey) as [[mz ez] lz].
  rewrite binary_round_aux_opp. destruct sx, sy; reflexivity.
Qed.

Lemma double_mul_neg (x y : double) : s_mul (s_neg x) y = s_neg (s_mul x y).
Proof.
  apply Prim2SF_inj. cbn. rewrite opp_spec, !mul_spec, opp_spec. unfold SF64mul.
  destruct (Prim2SF x) as [sx|sx| |sx mx ex], (Prim2SF y) as [sy|sy| |sy my ey];
    cbn; try reflexivity; try (destruct sx, sy; reflexivity).
  rewrite binary_round_aux_opp. destruct sx, sy; reflexivity.
Qed.

End DoubleDivision.

(** X24: on [double], dividing the octonion x by the octonion y computes,
    component for component, what dividing the complex value of y's
    components by that of x's computes: the operands are exchanged. *)
Theorem octonion_div_is_swapped_complex_div :
  forall a b c d : double,
    agree (Octonion.operator_div (Octonion.make a b) (Octonion.make c d))
          (Complex.operator_div (Complex.make c d) (Complex.make a b)).
Proof.
  intros a b c d. unfold agree, Octonion.operator_div, Complex.operator_div,
    Octonion.Re, Octonion.Im, Complex.Re, Complex.Im, Octonion.make, Complex.make.
  cbn [Octonion.real_part Octonion.imaginary_part
       Complex.real_part Complex.imaginary_part].
  split.
  - rewrite (double_mul_comm a c), (double_mul_comm b d). reflexivity.
  - reflexivity.
Qed.

(** X25: on [double], conjugation goes through multiplication and
    division of a quaternion by a scalar; so the conjugate of what
    [reciprocal] returns is the conjugate divided by the square of the
    norm. *)
Theorem quaternion_conjugate_scalar :
  forall (q : Quaternion.quaternion double) (s : double),
    Quaternion.conjugate (Quaternion.operator_div_scalar q s)
    = Quaternion.operator_div_scalar (Quaternion.conjugate q) s
    /\ Quaternion.conjugate (Quaternion.operator_mul_scalar q s)
       = Quaternion.operator_mul_scalar (Quaternion.conjugate q) s
    /\ Quaternion.conjugate (Quaternion.reciprocal q)
       = Quaternion.operator_div_scalar (Quaternion.conjugate q)
           (s_mul (Quaternion.norm q) (Quaternion.norm q)).
Proof.
  intros q s.
  assert (Hdiv : forall t : double,
             Quaternion.conjugate (Quaternion.operator_div_scalar q t)
             = Quaternion.operator_div_scalar (Quaternion.conjugate q) t).
  { intros t. unfold Quaternion.conjugate, Quaternion.operator_div_scalar, Quaternion.make.
    cbn [Quaternion.real_part Quaternion.i_part Quaternion.j_part Quaternion.k_part].
    rewrite !double_div_neg. reflexivity. }
  split; [apply Hdiv|split].
  - unfold Quaternion.conjugate, Quaternion.operator_mul_scalar, Quaternion.make.
    cbn [Quaternion.real_part Quaternion.i_part Quaternion.j_part Quaternion.k_part].
    rewrite !double_mul_neg. reflexivity.
  - unfold Quaternion.reciprocal. apply Hdiv.
Qed.
